(** * Fintech-POC: the mock financial clients, the fallback test generator,
      the knowledge lookup and the test runner, embedded in Rocq.

    Source files embedded here:
    - [api_clients/financial_apis.py]: [APIResponse], [AlphaVantageClient],
      [MockBankingAPI], [CurrencyExchangeClient];
    - [core/ai_engine.py]: [TestCase], [_generate_mock_test_cases],
      [_generate_mock_analysis];
    - [core/rag_engine.py]: [FINANCIAL_DOMAIN_DOCS], [_find_relevant_knowledge];
    - [tests/test_runner.py]: [_execute_test_case] and its three dispatchers,
      and the report record of [run_ai_generated_tests].

    Python values that the code handles dynamically (the values held by
    [test_data] and [api_spec] dictionaries) are a small universe [PyVal];
    Python floats are IEEE-754 binary64 numbers (Rocq's primitive [float]);
    exceptions are an explicit outcome; the clock, the random generator and the
    network are read from a [World] that every effectful call threads. *)

From Stdlib Require Import ZArith QArith List Bool Ascii String Lia.
From Stdlib Require Import Floats.
From Stdlib Require Import DecimalString.
Import ListNotations.

Set Warnings "-inexact-float,-register-all".

Local Open Scope string_scope.
Local Open Scope list_scope.
Local Open Scope Z_scope.

(* ================================================================== *)
(** ** Python strings *)

(** Strings are sequences of one-byte characters. The functions of this
    section are those of Python on ASCII strings ([str_isascii]); on other
    characters Python's [lower], [split] and [strip] also know the capitals
    and the spaces beyond ASCII, which are not modelled: the statements that
    depend on them for arbitrary strings assume [str_isascii].
    [str.lower] maps the ASCII capitals to small letters and leaves every
    other character alone. *)

Definition ascii_lower (c : ascii) : ascii :=
  let n := nat_of_ascii c in
  if (Nat.leb 65 n && Nat.leb n 90)%bool then ascii_of_nat (n + 32) else c.

Fixpoint str_lower (s : string) : string :=
  match s with
  | EmptyString => EmptyString
  | String c s' => String (ascii_lower c) (str_lower s')
  end.

(** [needle in hay] on two strings: [needle] occurs in [hay] as a substring. *)
Fixpoint str_in (needle hay : string) : bool :=
  (prefix needle hay ||
   match hay with
   | EmptyString => false
   | String _ hay' => str_in needle hay'
   end)%bool.

(** The ASCII characters [str.split()] separates on: tab, line feed, vertical
    tab, form feed, carriage return, the four separators 28..31 and the
    space. *)
Definition is_space (c : ascii) : bool :=
  let n := nat_of_ascii c in
  ((Nat.leb 9 n && Nat.leb n 13) || (Nat.leb 28 n && Nat.leb n 32))%bool.

Definition flush_word (cur : string) (rest : list string) : list string :=
  match cur with
  | EmptyString => rest
  | _ => cur :: rest
  end.

(** [s.split()]: the maximal runs of characters that are not whitespace. *)
Fixpoint split_from (cur s : string) : list string :=
  match s with
  | EmptyString => flush_word cur []
  | String c s' =>
      if is_space c then flush_word cur (split_from EmptyString s')
      else split_from (cur ++ String c EmptyString) s'
  end.

Definition str_split (s : string) : list string := split_from EmptyString s.

(** [s.isascii()]: every character is below 128. *)
Definition str_isascii (s : string) : bool :=
  forallb (fun c => Nat.ltb (nat_of_ascii c) 128) (list_ascii_of_string s).

(** [str(n)] for a Python int. *)
Definition int_str (z : Z) : string := NilZero.string_of_int (Z.to_int z).

(** [any(p(x) for x in l)] and [len([x for x in l if p(x)])]. *)
Definition py_any {A} (p : A -> bool) (l : list A) : bool := existsb p l.
Definition count_if {A} (p : A -> bool) (l : list A) : Z :=
  Z.of_nat (List.length (filter p l)).

(** [l[start:]]: a negative start counts from the end, and both ends clamp. *)
Definition slice_from {A} (start : Z) (l : list A) : list A :=
  let n := Z.of_nat (List.length l) in
  let i := if start <? 0 then Z.max 0 (start + n) else Z.min start n in
  skipn (Z.to_nat i) l.

(* ================================================================== *)
(** ** Dynamic values, exceptions *)

Inductive PyVal : Type :=
| VNone
| VBool (b : bool)
| VInt (z : Z)
| VFloat (f : float)
| VStr (s : string)
| VList (l : list PyVal)
| VDict (d : list (string * PyVal)).

(** A dictionary with string keys, in insertion order. *)
Definition PyDict := list (string * PyVal).

Definition type_name (v : PyVal) : string :=
  match v with
  | VNone => "NoneType"
  | VBool _ => "bool"
  | VInt _ => "int"
  | VFloat _ => "float"
  | VStr _ => "str"
  | VList _ => "list"
  | VDict _ => "dict"
  end.

Fixpoint dict_lookup (d : PyDict) (k : string) : option PyVal :=
  match d with
  | [] => None
  | (k', v) :: d' => if String.eqb k' k then Some v else dict_lookup d' k
  end.

(** [d.get(k, default)]. *)
Definition dict_get (d : PyDict) (k : string) (default : PyVal) : PyVal :=
  match dict_lookup d k with
  | Some v => v
  | None => default
  end.

(** [v == s] for a string literal [s]: only an equal string compares equal. *)
Definition eq_str (v : PyVal) (s : string) : bool :=
  match v with
  | VStr t => String.eqb t s
  | _ => false
  end.

Record PyExc : Type := mkExc { exc_class : string; exc_msg : string }.

(** [str(e)]. *)
Definition exc_str (e : PyExc) : string := exc_msg e.

Inductive Outcome (A : Type) : Type :=
| Ok (a : A)
| Raise (e : PyExc).
Arguments Ok {A} a.
Arguments Raise {A} e.

Definition TypeError (msg : string) : PyExc := mkExc "TypeError" msg.
Definition OverflowError (msg : string) : PyExc := mkExc "OverflowError" msg.
Definition KeyError (key : string) : PyExc :=
  mkExc "KeyError" ("'" ++ key ++ "'").

(** [d[k]]. *)
Definition dict_item (d : PyDict) (k : string) : Outcome PyVal :=
  match dict_lookup d k with
  | Some v => Ok v
  | None => Raise (KeyError k)
  end.

(** Dictionary keys are hashed: a list or a dict as key raises. *)
Definition hashable (v : PyVal) : Outcome unit :=
  match v with
  | VList _ | VDict _ =>
      Raise (TypeError ("unhashable type: '" ++ type_name v ++ "'"))
  | _ => Ok tt
  end.

(* ================================================================== *)
(** ** Float arithmetic against dynamic operands *)

(** [float(z)] for an int: the nearest binary64 number, ties to even;
    an int beyond the range raises. *)
Definition int_to_float (z : Z) : Outcome float :=
  match binary_normalize prec emax z 0 false with
  | S754_infinity _ => Raise (OverflowError "int too large to convert to float")
  | sf => Ok (SF2Prim sf)
  end.

(** [x < z] for a float and an int compares the exact values. *)
Definition float_lt_int (x : float) (z : Z) : bool :=
  match Prim2SF x with
  | S754_nan => false
  | S754_infinity s => s
  | S754_zero _ => 0 <? z
  | S754_finite s m e =>
      let v := if s then Z.neg m else Z.pos m in
      if 0 <=? e then v * 2 ^ e <? z else v <? z * 2 ^ (- e)
  end.

Definition bool_int (b : bool) : Z := if b then 1 else 0.

(** [x < v] with a float on the left. *)
Definition float_lt (x : float) (v : PyVal) : Outcome bool :=
  match v with
  | VFloat y => Ok (PrimFloat.ltb x y)
  | VInt z => Ok (float_lt_int x z)
  | VBool b => Ok (float_lt_int x (bool_int b))
  | _ => Raise (TypeError ("'<' not supported between instances of 'float' and '"
                           ++ type_name v ++ "'"))
  end.

(** The numeric right operand of [x -= v] and [x += v], as a float. *)
Definition float_operand (op : string) (v : PyVal) : Outcome float :=
  match v with
  | VFloat y => Ok y
  | VInt z => int_to_float z
  | VBool b => int_to_float (bool_int b)
  | _ => Raise (TypeError ("unsupported operand type(s) for " ++ op
                           ++ ": 'float' and '" ++ type_name v ++ "'"))
  end.

Definition float_isub (x : float) (v : PyVal) : Outcome float :=
  match float_operand "-=" v with
  | Ok y => Ok (PrimFloat.sub x y)
  | Raise e => Raise e
  end.

Definition float_iadd (x : float) (v : PyVal) : Outcome float :=
  match float_operand "+=" v with
  | Ok y => Ok (PrimFloat.add x y)
  | Raise e => Raise e
  end.

(** The exact value of a finite float times [10 ^ digits], rounded to the
    nearest integer, ties to even: the decimal digits that both
    [round(x, digits)] and ["%.<digits>f"] keep. [None] for nan and inf. *)
Definition half_even_div (n d : Z) : Z :=
  let q := n / d in
  let r := n mod d in
  match 2 * r ?= d with
  | Lt => q
  | Gt => q + 1
  | Eq => if Z.even q then q else q + 1
  end.

Definition scaled_digits (x : float) (digits : nat) : option (bool * Z) :=
  match Prim2SF x with
  | S754_nan | S754_infinity _ => None
  | S754_zero s => Some (s, 0)
  | S754_finite s m e =>
      let n := Z.pos m * 10 ^ Z.of_nat digits in
      Some (s, if 0 <=? e then n * 2 ^ e else half_even_div n (2 ^ (- e)))
  end.

(** The binary64 number nearest to [n / d] for positive integers. *)
Definition nearest_quotient (s : bool) (n d : positive) : float :=
  SF2Prim (SFdiv prec emax (S754_finite s n 0) (S754_finite false d 0)).

(** [round(x, digits)] with [digits >= 0]: nan, inf and zeros are returned
    as they are; otherwise the decimal rounding of the exact value, read back
    as the nearest float. *)
Definition py_round (x : float) (digits : nat) : float :=
  match scaled_digits x digits with
  | None => x
  | Some (s, n) =>
      match n with
      | Z.pos p => nearest_quotient s p (Pos.pow 10 (Pos.of_nat digits))
      | _ => if s then PrimFloat.neg_zero else PrimFloat.zero
      end
  end.

(** [a / b] for two non-negative ints, [b] positive: the float nearest to
    the exact quotient. *)
Definition int_truediv (a b : Z) : float :=
  match a, b with
  | Z.pos p, Z.pos q => nearest_quotient false p q
  | _, _ => PrimFloat.zero
  end.

(** [f"{x:.1f}"]. *)
Definition format_1f (x : float) : string :=
  match scaled_digits x 1 with
  | None =>
      if PrimFloat.is_nan x then "nan"
      else if PrimFloat.ltb x PrimFloat.zero then "-inf" else "inf"
  | Some (s, n) =>
      (if s then "-" else "") ++ int_str (n / 10) ++ "." ++ int_str (n mod 10)
  end.

(** [a / b] on floats raises on a zero divisor. *)
Definition float_div (a b : float) : Outcome float :=
  if PrimFloat.eqb b PrimFloat.zero
  then Raise (mkExc "ZeroDivisionError" "float division by zero")
  else Ok (PrimFloat.div a b).

(* ================================================================== *)
(** ** The world: clock, random generator, network, text provider *)

Record HttpResponse : Type := mkHttpResponse {
  http_status : Z;                          (* response.status_code *)
  http_json : Outcome PyVal;                (* response.json() *)
  http_headers : list (string * string)     (* dict(response.headers) *)
}.

Record World : Type := mkWorld {
  clock : nat -> float;        (* the successive readings of time.time() *)
  clock_reads : nat;
  isoformat : float -> string; (* datetime.isoformat of a reading *)
  dice : nat -> Z;             (* the successive draws of the generator *)
  dice_rolls : nat;
  network : nat -> string -> PyDict -> Outcome HttpResponse;
                               (* requests.get(url, params), by request number *)
  requests_sent : nat;
  openai : option (nat -> Outcome string);
                               (* None: the openai module is not installed;
                                  otherwise the text of each completion *)
  completions : nat
}.

Definition tick (w : World) : World :=
  mkWorld (clock w) (S (clock_reads w)) (isoformat w) (dice w) (dice_rolls w)
          (network w) (requests_sent w) (openai w) (completions w).

Definition rolled (w : World) : World :=
  mkWorld (clock w) (clock_reads w) (isoformat w) (dice w) (S (dice_rolls w))
          (network w) (requests_sent w) (openai w) (completions w).

Definition sent (w : World) : World :=
  mkWorld (clock w) (clock_reads w) (isoformat w) (dice w) (dice_rolls w)
          (network w) (S (requests_sent w)) (openai w) (completions w).

Definition completed (w : World) : World :=
  mkWorld (clock w) (clock_reads w) (isoformat w) (dice w) (dice_rolls w)
          (network w) (requests_sent w) (openai w) (S (completions w)).

(** Computations that read and advance the world and may raise. *)
Definition M (A : Type) : Type := World -> Outcome A * World.

Definition ret {A} (a : A) : M A := fun w => (Ok a, w).

Definition bind {A B} (c : M A) (k : A -> M B) : M B :=
  fun w =>
    match c w with
    | (Ok a, w') => k a w'
    | (Raise e, w') => (Raise e, w')
    end.

Notation "x <- c ;; k" := (bind c (fun x => k))
  (at level 61, c at next level, right associativity).

Definition lift {A} (o : Outcome A) : M A := fun w => (o, w).

(** [try: body / except Exception as e: handler(e)]. *)
Definition try_except {A} (body : M A) (handler : PyExc -> M A) : M A :=
  fun w =>
    match body w with
    | (Ok a, w') => (Ok a, w')
    | (Raise e, w') => handler e w'
    end.

(** [time.time()]. *)
Definition time_time : M float :=
  fun w => (Ok (clock w (clock_reads w)), tick w).

(** [datetime.now().isoformat()]. *)
Definition now_isoformat : M string :=
  fun w => (Ok (isoformat w (clock w (clock_reads w))), tick w).

(** [random.randint(lo, hi)]: some integer of [lo..hi]. *)
Definition randint (lo hi : Z) : M Z :=
  fun w => (Ok (lo + dice w (dice_rolls w) mod (hi - lo + 1)), rolled w).

(** [requests.get(url, params=params, timeout=30)]. *)
Definition requests_get (url : string) (params : PyDict) : M HttpResponse :=
  fun w => (network w (requests_sent w) url params, sent w).

(* ================================================================== *)
(** ** api_clients/financial_apis.py *)

Record APIResponse : Type := mkAPIResponse {
  status_code : Z;
  data : PyVal;
  headers : list (string * string);
  response_time : float;
  success : bool
}.

Definition json_headers : list (string * string) :=
  [("Content-Type", "application/json")].

(** *** AlphaVantageClient *)

Record AlphaVantageClient : Type := mkAlphaVantageClient {
  av_base_url : string;
  api_key : string
}.

Definition AlphaVantageClient_init (key : string) : AlphaVantageClient :=
  mkAlphaVantageClient "https://www.alphavantage.co/query" key.

Definition get_stock_price (self : AlphaVantageClient) (symbol : PyVal)
  : M APIResponse :=
  start_time <- time_time ;;
  let params := [("function", VStr "GLOBAL_QUOTE"); ("symbol", symbol);
                 ("apikey", VStr (api_key self))] in
  try_except
    (response <- requests_get (av_base_url self) params ;;
     now <- time_time ;;
     let elapsed := PrimFloat.sub now start_time in
     body <- lift (http_json response) ;;
     ret (mkAPIResponse (http_status response) body (http_headers response)
                        elapsed (http_status response =? 200)))
    (fun e =>
       now <- time_time ;;
       ret (mkAPIResponse 500 (VDict [("error", VStr (exc_str e))]) []
                          (PrimFloat.sub now start_time) false)).

(** *** MockBankingAPI *)

Record Account : Type := mkAccount {
  account_id : string;
  account_number : string;
  account_type : string;
  balance : float;
  currency : string;
  acc_status : string
}.

Record Transaction : Type := mkTransaction {
  transaction_id : string;
  txn_from_account : PyVal;
  txn_to_account : PyVal;
  txn_amount : PyVal;
  txn_status : string;
  txn_timestamp : float
}.

(** The transaction as the dictionary the source builds. *)
Definition txn_dict (t : Transaction) : PyDict :=
  [("transaction_id", VStr (transaction_id t));
   ("from_account", txn_from_account t);
   ("to_account", txn_to_account t);
   ("amount", txn_amount t);
   ("status", VStr (txn_status t));
   ("timestamp", VFloat (txn_timestamp t))].

Record MockBankingAPI : Type := mkMockBankingAPI {
  bank_base_url : string;
  accounts : list Account;
  transactions : list Transaction
}.

Definition _generate_mock_accounts : list Account :=
  [mkAccount "ACC001" "1234567890" "checking" 5000 "USD" "active";
   mkAccount "ACC002" "2345678901" "savings" 15000 "USD" "active"].

Definition MockBankingAPI_init : MockBankingAPI :=
  mkMockBankingAPI "http://localhost:8000" _generate_mock_accounts [].

(** [next((acc for acc in self.accounts if acc["account_id"] == id), None)]:
    the position of the first account with that id. The position stands for
    the reference to the account dictionary that Python returns. *)
Fixpoint find_account (accts : list Account) (id : PyVal) : option nat :=
  match accts with
  | [] => None
  | acc :: rest =>
      if eq_str id (account_id acc) then Some 0%nat
      else option_map S (find_account rest id)
  end.

Definition with_balance (acc : Account) (b : float) : Account :=
  mkAccount (account_id acc) (account_number acc) (account_type acc) b
            (currency acc) (acc_status acc).

(** [acc["balance"]] and [acc["balance"] = b] through a reference. *)
Definition balance_at (accts : list Account) (i : nat) : float :=
  match nth_error accts i with
  | Some acc => balance acc
  | None => PrimFloat.zero
  end.

Fixpoint set_balance_at (accts : list Account) (i : nat) (b : float)
  : list Account :=
  match accts, i with
  | [], _ => []
  | acc :: rest, O => with_balance acc b :: rest
  | acc :: rest, S i' => acc :: set_balance_at rest i' b
  end.

Definition with_accounts (self : MockBankingAPI) (accts : list Account)
  : MockBankingAPI :=
  mkMockBankingAPI (bank_base_url self) accts (transactions self).

Definition append_transaction (self : MockBankingAPI) (t : Transaction)
  : MockBankingAPI :=
  mkMockBankingAPI (bank_base_url self) (accounts self)
                   (transactions self ++ [t]).

Definition error_response (code : Z) (msg : string) (elapsed : float)
  : APIResponse :=
  mkAPIResponse code (VDict [("error", VStr msg)]) json_headers elapsed false.

Definition get_account_balance (self : MockBankingAPI) (id : PyVal)
  : M APIResponse :=
  start_time <- time_time ;;
  match find_account (accounts self) id with
  | Some i =>
      stamp <- time_time ;;
      now <- time_time ;;
      ret (mkAPIResponse 200
             (VDict [("account_id", id);
                     ("balance", VFloat (balance_at (accounts self) i));
                     ("currency",
                      VStr (match nth_error (accounts self) i with
                            | Some acc => currency acc
                            | None => ""
                            end));
                     ("timestamp", VFloat stamp)])
             json_headers (PrimFloat.sub now start_time) true)
  | None =>
      now <- time_time ;;
      ret (error_response 404 "Account not found" (PrimFloat.sub now start_time))
  end.

(** [transfer_funds] returns the response together with the client after the
    call; the two accounts are reached through their references, so a source
    and a destination that are the same account are updated one after the
    other on the same record. *)
Definition transfer_funds (self : MockBankingAPI)
           (from_account to_account amount : PyVal)
  : M (APIResponse * MockBankingAPI) :=
  start_time <- time_time ;;
  let from_acc := find_account (accounts self) from_account in
  let to_acc := find_account (accounts self) to_account in
  match from_acc with
  | None =>
      now <- time_time ;;
      ret (error_response 404 "Source account not found"
                          (PrimFloat.sub now start_time), self)
  | Some i =>
      match to_acc with
      | None =>
          now <- time_time ;;
          ret (error_response 404 "Destination account not found"
                              (PrimFloat.sub now start_time), self)
      | Some j =>
          short <- lift (float_lt (balance_at (accounts self) i) amount) ;;
          if (short : bool) then
            now <- time_time ;;
            ret (error_response 400 "Insufficient funds"
                                (PrimFloat.sub now start_time), self)
          else
            debited <- lift (float_isub (balance_at (accounts self) i) amount) ;;
            let accts1 := set_balance_at (accounts self) i debited in
            credited <- lift (float_iadd (balance_at accts1 j) amount) ;;
            let accts2 := set_balance_at accts1 j credited in
            n <- randint 100000 999999 ;;
            stamp <- time_time ;;
            let transaction :=
              mkTransaction ("TXN" ++ int_str n) from_account to_account amount
                            "completed" stamp in
            let self' := append_transaction (with_accounts self accts2)
                                            transaction in
            now <- time_time ;;
            ret (mkAPIResponse 200 (VDict (txn_dict transaction)) json_headers
                               (PrimFloat.sub now start_time) true, self')
      end
  end.

Definition touches (id : string) (t : Transaction) : bool :=
  (eq_str (txn_from_account t) id || eq_str (txn_to_account t) id)%bool.

(** The two payload entries of the history response that depend on the log. *)
Definition history_page (self : MockBankingAPI) (id : string) (limit : Z)
  : list Transaction * Z :=
  let account_transactions := filter (touches id) (transactions self) in
  (slice_from (- limit) account_transactions,
   Z.of_nat (List.length account_transactions)).

Definition get_transaction_history (self : MockBankingAPI) (id : string)
           (limit : Z) : M APIResponse :=
  start_time <- time_time ;;
  let page := history_page self id limit in
  now <- time_time ;;
  ret (mkAPIResponse 200
         (VDict [("account_id", VStr id);
                 ("transactions",
                  VList (map (fun t => VDict (txn_dict t)) (fst page)));
                 ("total_count", VInt (snd page))])
         json_headers (PrimFloat.sub now start_time) true).

(** *** CurrencyExchangeClient *)

Record CurrencyExchangeClient : Type := mkCurrencyExchangeClient {
  fx_base_url : string;
  mock_rates : list (string * float)
}.

Definition CurrencyExchangeClient_init : CurrencyExchangeClient :=
  mkCurrencyExchangeClient "https://api.fixer.io/latest"
    [("USD", 1.0%float); ("EUR", 0.85%float); ("GBP", 0.73%float);
     ("JPY", 110.0%float); ("CAD", 1.25%float)].

(** [self.mock_rates[k]] when [k in self.mock_rates]. *)
Fixpoint rate_of (rates : list (string * float)) (k : PyVal) : option float :=
  match rates with
  | [] => None
  | (name, r) :: rest => if eq_str k name then Some r else rate_of rest k
  end.

Definition get_exchange_rate (self : CurrencyExchangeClient)
           (from_currency to_currency : PyVal) : M APIResponse :=
  start_time <- time_time ;;
  _ <- lift (hashable from_currency) ;;
  match rate_of (mock_rates self) from_currency with
  | None =>
      now <- time_time ;;
      ret (error_response 400 "Unsupported currency"
                          (PrimFloat.sub now start_time))
  | Some from_rate =>
      _ <- lift (hashable to_currency) ;;
      match rate_of (mock_rates self) to_currency with
      | None =>
          now <- time_time ;;
          ret (error_response 400 "Unsupported currency"
                              (PrimFloat.sub now start_time))
      | Some to_rate =>
          exchange_rate <- lift (float_div to_rate from_rate) ;;
          stamp <- time_time ;;
          now <- time_time ;;
          ret (mkAPIResponse 200
                 (VDict [("from", from_currency);
                         ("to", to_currency);
                         ("rate", VFloat (py_round exchange_rate 4));
                         ("timestamp", VFloat stamp)])
                 json_headers (PrimFloat.sub now start_time) true)
      end
  end.

(* ================================================================== *)
(** ** core/rag_engine.py: the knowledge base *)

(** The six documents of [FINANCIAL_DOMAIN_DOCS], character for character
    (each starts with a line feed and ends with a line feed and four spaces,
    as the triple-quoted literals do). *)

Definition DOC_PCI_DSS : string :=
"
    PCI DSS Compliance Testing Requirements:
    - All credit card data must be encrypted in transit and at rest
    - Access to cardholder data must be restricted and logged
    - Regular vulnerability scans must be performed
    - Strong access control measures must be implemented
    - Cardholder data must not be stored unnecessarily
    - Network security testing must be performed regularly
    ".

Definition DOC_AML : string :=
"
    Anti-Money Laundering (AML) Testing:
    - Transaction monitoring for suspicious patterns
    - Customer due diligence verification
    - Sanctions screening for all parties
    - Reporting of suspicious activities within required timeframes
    - Know Your Customer (KYC) procedures must be tested
    - Large transaction reporting thresholds must be validated
    ".

Definition DOC_TRANSACTION_INTEGRITY : string :=
"
    Financial Transaction Integrity:
    - All transactions must have proper authorization
    - Transaction amounts must be validated against limits
    - Duplicate transaction detection and prevention
    - Audit trails must be maintained for all transactions
    - Transaction reversal procedures must be tested
    - Multi-factor authentication for high-value transactions
    ".

Definition DOC_GDPR : string :=
"
    GDPR Data Privacy Requirements:
    - Personal financial data must be protected
    - Users must have right to data portability
    - Data retention policies must be enforced
    - Consent management for data processing
    - Right to be forgotten must be implemented
    - Data breach notification procedures must be tested
    ".

Definition DOC_SOX : string :=
"
    SOX Financial Reporting Compliance:
    - Internal controls over financial reporting must be tested
    - Accuracy of financial data must be validated
    - Segregation of duties must be enforced
    - Management assertions must be testable
    - IT general controls must be evaluated
    - Change management processes must be validated
    ".

Definition DOC_BANKING_SECURITY : string :=
"
    Banking Security Best Practices:
    - Multi-factor authentication for all access
    - Session timeout and management
    - Secure communication protocols (TLS 1.3+)
    - Input validation and sanitization
    - Rate limiting and DDoS protection
    - Fraud detection and prevention systems
    ".

Definition FINANCIAL_DOMAIN_DOCS : list string :=
  [DOC_PCI_DSS; DOC_AML; DOC_TRANSACTION_INTEGRITY; DOC_GDPR; DOC_SOX;
   DOC_BANKING_SECURITY].

Definition KEYWORDS : list string :=
  ["pci"; "aml"; "gdpr"; "transaction"; "compliance"; "security"].

(** The two tests of the loop body on one document. *)
Definition has_keyword (doc : string) : bool :=
  py_any (fun keyword => str_in keyword (str_lower doc)) KEYWORDS.

Definition has_query_word (query_lower doc : string) : bool :=
  py_any (fun word => str_in word (str_lower doc)) (str_split query_lower).

(** One turn of [for doc in self.knowledge_base]. *)
Definition scan_doc (query_lower : string) (relevant : list string)
           (doc : string) : list string :=
  if has_keyword doc then
    if has_query_word query_lower doc then relevant ++ [doc] else relevant
  else relevant.

Definition _find_relevant_knowledge (knowledge_base : list string)
           (query : string) : list string :=
  let query_lower := str_lower query in
  let relevant := fold_left (scan_doc query_lower) knowledge_base [] in
  match relevant with
  | [] => firstn 2 knowledge_base
  | _ => relevant
  end.

(* ================================================================== *)
(** ** core/ai_engine.py and tests/test_runner.py *)

Record TestCase : Type := mkTestCase {
  name : string;
  description : string;
  test_type : string;
  priority : string;
  steps : list string;
  expected_result : string;
  api_endpoint : option string;
  test_data : option PyDict
}.

(** [s.strip()]. *)
Fixpoint str_lstrip (s : string) : string :=
  match s with
  | String c s' => if is_space c then str_lstrip s' else s
  | EmptyString => EmptyString
  end.

Fixpoint str_rev (s : string) : string :=
  match s with
  | EmptyString => EmptyString
  | String c s' => str_rev s' ++ String c EmptyString
  end.

Definition str_strip (s : string) : string :=
  str_rev (str_lstrip (str_rev (str_lstrip s))).

(** [v.lower()] on a dynamic value: only a string has the method. *)
Definition py_lower (v : PyVal) : Outcome string :=
  match v with
  | VStr s => Ok (str_lower s)
  | _ => Raise (mkExc "AttributeError"
                      ("'" ++ type_name v ++ "' object has no attribute 'lower'"))
  end.

(** [test_case.test_data.get(k, default) if test_case.test_data else default]:
    [None] and the empty dictionary are both false. *)
Definition test_data_get (test_case : TestCase) (k : string) (default : PyVal)
  : PyVal :=
  match test_data test_case with
  | Some ((_ :: _) as d) => dict_get d k default
  | _ => default
  end.

(** The result dictionary the three dispatchers build from a response. *)
Definition verdict (label : string) (response : APIResponse) : PyDict :=
  [("status", VStr (if success response then "passed" else "failed"));
   ("message", VStr (label ++ int_str (status_code response)));
   ("response_time", VFloat (response_time response))].

Definition not_implemented : PyDict :=
  [("status", VStr "skipped"); ("message", VStr "Test not implemented")].

Definition _test_stock_api (client : AlphaVantageClient) (test_case : TestCase)
  : M PyDict :=
  if str_in "get_stock_price" (str_lower (name test_case)) then
    let symbol := test_data_get test_case "symbol" (VStr "AAPL") in
    response <- get_stock_price client symbol ;;
    ret (verdict "Stock price API response: " response)
  else ret not_implemented.

Definition _test_banking_api (client : MockBankingAPI) (test_case : TestCase)
  : M PyDict :=
  if str_in "balance" (str_lower (name test_case)) then
    let id := test_data_get test_case "account_id" (VStr "ACC001") in
    response <- get_account_balance client id ;;
    ret (verdict "Balance API response: " response)
  else if str_in "transfer" (str_lower (name test_case)) then
    let from_acc := test_data_get test_case "from_account" (VStr "ACC001") in
    let to_acc := test_data_get test_case "to_account" (VStr "ACC002") in
    let amount := test_data_get test_case "amount" (VFloat 100.0) in
    served <- transfer_funds client from_acc to_acc amount ;;
    ret (verdict "Transfer API response: " (fst served))
  else ret not_implemented.

Definition _test_currency_api (client : CurrencyExchangeClient)
           (test_case : TestCase) : M PyDict :=
  if str_in "exchange_rate" (str_lower (name test_case)) then
    let from_curr := test_data_get test_case "from_currency" (VStr "USD") in
    let to_curr := test_data_get test_case "to_currency" (VStr "EUR") in
    response <- get_exchange_rate client from_curr to_curr ;;
    ret (verdict "Exchange rate API response: " response)
  else ret not_implemented.

(** [_generate_mock_analysis]. *)
Definition is_passed (r : PyDict) : bool :=
  eq_str (dict_get r "status" VNone) "passed".

Definition RECOMMENDATIONS : list PyVal :=
  [VStr "Review failed tests for patterns";
   VStr "Add more edge case testing";
   VStr "Consider load testing for performance validation"].

Definition _generate_mock_analysis (results : list PyDict) : PyDict :=
  let total_tests := Z.of_nat (List.length results) in
  let passed_tests := count_if is_passed results in
  let failed_tests := total_tests - passed_tests in
  [("overall_health",
    VStr (if failed_tests <? passed_tests then "Good" else "Needs Attention"));
   ("success_rate",
    VStr (if 0 <? total_tests
          then format_1f (PrimFloat.mul (int_truediv passed_tests total_tests)
                                        100) ++ "%"
          else "0%"));
   ("total_tests", VInt total_tests);
   ("passed_tests", VInt passed_tests);
   ("failed_tests", VInt failed_tests);
   ("recommendations", VList RECOMMENDATIONS)].

(** The list comprehension [[r for r in all_results if r["status"] == want]]:
    the subscript raises on a result without a status. *)
Fixpoint with_status (want : string) (all_results : list PyDict)
  : Outcome (list PyDict) :=
  match all_results with
  | [] => Ok []
  | r :: rest =>
      match dict_item r "status" with
      | Raise e => Raise e
      | Ok v =>
          match with_status want rest with
          | Raise e => Raise e
          | Ok kept => Ok (if eq_str v want then r :: kept else kept)
          end
      end
  end.

Definition len {A} (l : list A) : PyVal := VInt (Z.of_nat (List.length l)).

(** The record [run_ai_generated_tests] returns (lines 60-67). *)
Definition report_record (all_results : list PyDict) (analysis : PyDict)
  : M PyDict :=
  passed <- lift (with_status "passed" all_results) ;;
  failed <- lift (with_status "failed" all_results) ;;
  stamp <- now_isoformat ;;
  ret [("test_results", VList (map VDict all_results));
       ("ai_analysis", VDict analysis);
       ("total_tests", len all_results);
       ("passed_tests", len passed);
       ("failed_tests", len failed);
       ("timestamp", VStr stamp)].

Section Runtime.

(** [str(v)] of a float, a list or a dict is the interpreter's [repr]; it is
    not modelled and every result below holds whatever it prints. *)
Variable repr_other : PyVal -> string.

(** The JSON reading of [_parse_ai_response] (lines 226-231): the test cases
    read from a provider's text, or [None] when the text holds no array or
    reading it raised. Not modelled: it only runs on a provider's answer. *)
Variable read_test_cases : string -> option (list TestCase).

(** [str(v)], as an f-string formats a value. *)
Definition py_str (v : PyVal) : string :=
  match v with
  | VNone => "None"
  | VBool true => "True"
  | VBool false => "False"
  | VInt z => int_str z
  | VStr s => s
  | _ => repr_other v
  end.

Definition _generate_mock_test_cases (api_spec : PyDict) : list TestCase :=
  let api_name := py_str (dict_get api_spec "name" (VStr "Unknown API")) in
  [mkTestCase (api_name ++ " Happy Path Test")
              ("Test successful operation of " ++ api_name)
              "functional" "high"
              ["Send valid request"; "Verify response"]
              "Successful response with expected data"
              (Some "/api/test") (Some [("test", VStr "data")]);
   mkTestCase (api_name ++ " Error Handling Test")
              ("Test error handling for " ++ api_name)
              "functional" "medium"
              ["Send invalid request"; "Verify error response"]
              "Proper error message returned"
              (Some "/api/test") (Some [("invalid", VStr "data")]);
   mkTestCase (api_name ++ " Security Test")
              ("Test security of " ++ api_name)
              "security" "high"
              ["Send malicious payload"; "Verify rejection"]
              "Request blocked or sanitized"
              (Some "/api/test") (Some [("malicious", VStr "payload")])].

(** [openai.Completion.create(...).choices[0].text]. *)
Definition completion_text (ask : nat -> Outcome string) : M string :=
  fun w => (ask (completions w), completed w).

Definition _parse_ai_response (response_text : string) (api_spec : PyDict)
  : list TestCase :=
  match read_test_cases response_text with
  | Some cases => cases
  | None => _generate_mock_test_cases api_spec
  end.

Definition generate_test_cases (api_spec : PyDict) : M (list TestCase) :=
  fun w =>
    match openai w with
    | None => ret (_generate_mock_test_cases api_spec) w
    | Some ask =>
        try_except
          (text <- completion_text ask ;;
           ret (_parse_ai_response text api_spec))
          (fun _ => ret (_generate_mock_test_cases api_spec)) w
    end.

Definition analyze_test_results (results : list PyDict) : M PyDict :=
  fun w =>
    match openai w with
    | None => ret (_generate_mock_analysis results) w
    | Some ask =>
        try_except
          (text <- completion_text ask ;;
           ret [("analysis", VStr (str_strip text))])
          (fun e => ret [("error", VStr ("Analysis failed: " ++ exc_str e))]) w
    end.

Definition scenario (title about prio kind : string) : PyDict :=
  [("name", VStr title); ("description", VStr about);
   ("priority", VStr prio); ("type", VStr kind)].

(** [generate_domain_aware_tests] of the knowledge engine. *)
Definition generate_domain_aware_tests (knowledge_base : list string)
           (api_spec : PyDict) (query_context : string)
  : Outcome (list PyDict) :=
  let api_name := py_str (dict_get api_spec "name" (VStr "Unknown API")) in
  let api_type := dict_get api_spec "type" (VStr "unknown") in
  let relevant_docs := _find_relevant_knowledge knowledge_base query_context in
  match py_lower api_type with
  | Raise e => Raise e
  | Ok kind =>
      let banking :=
        if (str_in "banking" kind || str_in "transaction" kind)%bool then
          [scenario (api_name ++ " AML Compliance Test")
                    "Test anti-money laundering transaction monitoring"
                    "high" "compliance";
           scenario (api_name ++ " Transaction Integrity Test")
                    "Verify transaction authorization and limits"
                    "high" "functional"]
        else [] in
      let payment :=
        if (str_in "payment" kind || str_in "card" kind)%bool then
          [scenario (api_name ++ " PCI DSS Compliance Test")
                    "Test credit card data encryption and protection"
                    "high" "security"]
        else [] in
      Ok (banking ++ payment ++
          [scenario (api_name ++ " GDPR Data Privacy Test")
                    "Test personal data protection and user rights"
                    "medium" "compliance"])
  end.

Definition endpoint_value (test_case : TestCase) : PyVal :=
  match api_endpoint test_case with
  | Some e => VStr e
  | None => VNone
  end.

(** The body of the [try] of [_execute_test_case]. *)
Definition execute_body (test_case : TestCase) (api_spec : PyDict)
  : M PyDict :=
  let api_type := dict_get api_spec "type" (VStr "unknown") in
  result <-
    (if eq_str api_type "stock_api" then
       _test_stock_api (AlphaVantageClient_init "demo") test_case
     else if eq_str api_type "banking_api" then
       _test_banking_api MockBankingAPI_init test_case
     else if eq_str api_type "currency_api" then
       _test_currency_api CurrencyExchangeClient_init test_case
     else
       ret [("status", VStr "skipped");
            ("message", VStr ("Unknown API type: " ++ py_str api_type))]) ;;
  status <- lift (dict_item result "status") ;;
  stamp <- now_isoformat ;;
  ret [("test_name", VStr (name test_case));
       ("test_type", VStr (test_type test_case));
       ("priority", VStr (priority test_case));
       ("api_endpoint", endpoint_value test_case);
       ("status", status);
       ("message", dict_get result "message" (VStr ""));
       ("response_time", dict_get result "response_time" (VInt 0));
       ("timestamp", VStr stamp)].

(** The [except Exception as e] clause. *)
Definition execute_handler (test_case : TestCase) (e : PyExc) : M PyDict :=
  stamp <- now_isoformat ;;
  ret [("test_name", VStr (name test_case));
       ("test_type", VStr (test_type test_case));
       ("priority", VStr (priority test_case));
       ("status", VStr "error");
       ("message", VStr (exc_str e));
       ("timestamp", VStr stamp)].

Definition _execute_test_case (test_case : TestCase) (api_spec : PyDict)
  : M PyDict :=
  try_except (execute_body test_case api_spec) (execute_handler test_case).

(** [for test_case in test_cases: all_results.append(...)]. *)
Fixpoint execute_all (test_cases : list TestCase) (api_spec : PyDict)
         (all_results : list PyDict) : M (list PyDict) :=
  match test_cases with
  | [] => ret all_results
  | test_case :: rest =>
      result <- _execute_test_case test_case api_spec ;;
      execute_all rest api_spec (all_results ++ [result])
  end.

(** [for api_spec in api_specs: ...]. *)
Fixpoint run_specs (knowledge_base : list string) (api_specs : list PyDict)
         (all_results : list PyDict) : M (list PyDict) :=
  match api_specs with
  | [] => ret all_results
  | api_spec :: rest =>
      test_cases <- generate_test_cases api_spec ;;
      _ <- lift (generate_domain_aware_tests knowledge_base api_spec
                   "Banking and financial services") ;;
      all_results' <- execute_all test_cases api_spec all_results ;;
      run_specs knowledge_base rest all_results'
  end.

Definition run_ai_generated_tests (api_specs : list PyDict) : M PyDict :=
  all_results <- run_specs FINANCIAL_DOMAIN_DOCS api_specs [] ;;
  analysis <- analyze_test_results all_results ;;
  report_record all_results analysis.

End Runtime.

(** The sample specifications of the runner. *)
Definition SAMPLE_API_SPECS : list PyDict :=
  [[("name", VStr "Stock Market API"); ("type", VStr "stock_api");
    ("description", VStr "API for retrieving stock market data");
    ("endpoints", VList [VStr "/quote"; VStr "/historical"]);
    ("authentication", VStr "API Key")];
   [("name", VStr "Banking API"); ("type", VStr "banking_api");
    ("description", VStr "Core banking operations API");
    ("endpoints", VList [VStr "/balance"; VStr "/transfer"; VStr "/history"]);
    ("authentication", VStr "OAuth 2.0")];
   [("name", VStr "Currency Exchange API"); ("type", VStr "currency_api");
    ("description", VStr "Real-time currency exchange rates");
    ("endpoints", VList [VStr "/rates"; VStr "/convert"]);
    ("authentication", VStr "API Key")]].

(* ================================================================== *)
(** ** Vocabulary of the statements *)

(** The balance a reader sees for an id: that of the first account with it,
    the one [get_account_balance] reports. *)
Definition balance_of (accts : list Account) (id : string) : option float :=
  option_map (balance_at accts) (find_account accts (VStr id)).

(** The exact value of a finite float, as a rational. *)
Definition float_value (x : float) : Q :=
  match Prim2SF x with
  | S754_finite s m e =>
      (inject_Z (if s then Z.neg m else Z.pos m) * Qpower 2 e)%Q
  | _ => 0%Q
  end.

(** The float subtraction (addition) incurred no rounding. *)
Definition exact_sub (a x : float) : Prop :=
  (float_value (PrimFloat.sub a x) == float_value a - float_value x)%Q.

Definition exact_add (b x : float) : Prop :=
  (float_value (PrimFloat.add b x) == float_value b + float_value x)%Q.

(** The time between the first reading of the clock and the one [k] later. *)
Definition elapsed (w : World) (k : nat) : float :=
  PrimFloat.sub (clock w (clock_reads w + k)) (clock w (clock_reads w)).

Definition tick_n (k : nat) (w : World) : World := Nat.iter k tick w.

(** The transaction a successful transfer logs in world [w]. *)
Definition transfer_record (from_account to_account amount : PyVal) (w : World)
  : Transaction :=
  mkTransaction
    ("TXN" ++ int_str (100000 + dice w (dice_rolls w) mod (999999 - 100000 + 1)))
    from_account to_account amount "completed" (clock w (S (clock_reads w))).

(** A world with a stopped clock, a constant generator, no network and no
    text provider. *)
Definition quiet_world : World :=
  mkWorld (fun _ => 0%float) 0 (fun _ => "2024-01-01T00:00:00") (fun _ => 0) 0
          (fun _ _ _ => Raise (mkExc "ConnectionError" "network unreachable")) 0
          None 0.

(** Seven passed and three failed result records. *)
Definition seven_passed_three_failed : list PyDict :=
  repeat [("status", VStr "passed")] 7 ++ repeat [("status", VStr "failed")] 3.

(** [r.get("status") == want]. *)
Definition has_status (want : string) (r : PyDict) : bool :=
  eq_str (dict_get r "status" VNone) want.

(** One result of each status: one passed, one failed, four in total. *)
Definition one_of_each : list PyDict :=
  [[("status", VStr "passed")]; [("status", VStr "failed")];
   [("status", VStr "skipped")]; [("status", VStr "error")]].

(** The test a document passes to be kept. *)
Definition relevant_doc (query_lower doc : string) : bool :=
  (has_keyword doc && has_query_word query_lower doc)%bool.



(** The fixed table, as the client holds it. *)
Definition RATE_TABLE : list (string * float) :=
  mock_rates CurrencyExchangeClient_init.

Definition table_rate (c : string) : option float := rate_of RATE_TABLE (VStr c).

(** The payload entry ["rate"] of a response. *)
Definition rate_field (resp : APIResponse) : option PyVal :=
  match data resp with
  | VDict d => dict_lookup d "rate"
  | _ => None
  end.

(** What the banking dispatcher does when it transfers with the defaults. *)
Definition default_transfer : M PyDict :=
  served <- transfer_funds MockBankingAPI_init (VStr "ACC001") (VStr "ACC002")
                           (VFloat 100.0) ;;
  ret (verdict "Transfer API response: " (fst served)).

(** Three banking test cases without test data, and one whose amount is a
    string. *)
Definition BANKING_SPEC : PyDict :=
  [("name", VStr "Banking API"); ("type", VStr "banking_api")].

Definition plain_case (title : string) (payload : option PyDict) : TestCase :=
  mkTestCase title "" "functional" "high" [] "" None payload.

Definition transfer_case : TestCase := plain_case "Funds Transfer Test" None.

Definition balance_transfer_case : TestCase :=
  plain_case "Balance transfer check" None.

Definition text_amount_case : TestCase :=
  plain_case "Funds Transfer Test" (Some [("amount", VStr "a lot")]).

Definition nan_bank : MockBankingAPI :=
  mkMockBankingAPI "http://localhost:8000"
    [mkAccount "ACC001" "1234567890" "checking" PrimFloat.nan "USD" "active";
     mkAccount "ACC002" "2345678901" "savings" 15000 "USD" "active"] [].

(** The amounts the balance test cannot compare with a float. *)
Definition not_a_number (v : PyVal) : bool :=
  match v with
  | VFloat _ | VInt _ | VBool _ => false
  | _ => true
  end.

(** The query the stock client sends for a symbol. *)
Definition quote_params (self : AlphaVantageClient) (symbol : PyVal) : PyDict :=
  [("function", VStr "GLOBAL_QUOTE"); ("symbol", symbol);
   ("apikey", VStr (api_key self))].

(** Lists and dicts cannot be hashed. *)
Definition is_container (v : PyVal) : bool :=
  match v with
  | VList _ | VDict _ => true
  | _ => false
  end.

Definition in_table (v : PyVal) : bool :=
  match rate_of RATE_TABLE v with
  | Some _ => true
  | None => false
  end.

(** The failure response of [get_stock_price] for an exception. *)
Definition quote_failure (e : PyExc) (w : World) : APIResponse :=
  mkAPIResponse 500 (VDict [("error", VStr (exc_str e))]) []
                (PrimFloat.sub (clock w (S (clock_reads w))) (clock w (clock_reads w)))
                false.

(** The statuses a dispatcher can give. *)
Definition dispatcher_status (v : PyVal) : bool :=
  (eq_str v "passed" || eq_str v "failed" || eq_str v "skipped")%bool.

Definition FULL_KEYS : list string :=
  ["test_name"; "test_type"; "priority"; "api_endpoint"; "status"; "message";
   "response_time"; "timestamp"].

Definition ERROR_KEYS : list string :=
  ["test_name"; "test_type"; "priority"; "status"; "message"; "timestamp"].

(** The dispatching expression of [_execute_test_case]. *)
Definition dispatch (repr_other : PyVal -> string) (test_case : TestCase)
           (api_spec : PyDict) : M PyDict :=
  let api_type := dict_get api_spec "type" (VStr "unknown") in
  if eq_str api_type "stock_api" then
    _test_stock_api (AlphaVantageClient_init "demo") test_case
  else if eq_str api_type "banking_api" then
    _test_banking_api MockBankingAPI_init test_case
  else if eq_str api_type "currency_api" then
    _test_currency_api CurrencyExchangeClient_init test_case
  else
    ret [("status", VStr "skipped");
         ("message", VStr ("Unknown API type: " ++ py_str repr_other api_type))].

(** The word a dispatcher looks for in the lowercased name, by type. *)
Definition names_action (api_type : string) (test_case : TestCase) : bool :=
  let lowered := str_lower (name test_case) in
  if String.eqb api_type "stock_api" then str_in "get_stock_price" lowered
  else if String.eqb api_type "banking_api" then
    (str_in "balance" lowered || str_in "transfer" lowered)%bool
  else str_in "exchange_rate" lowered.


(** A computation that leaves the text provider of the world as it found it. *)
Definition keeps_provider {A} (c : M A) : Prop :=
  forall w, openai (snd (c w)) = openai w.

(** A specification whose type, when it has one, is a string. *)
Definition typed_spec (api_spec : PyDict) : Prop :=
  exists s, dict_get api_spec "type" (VStr "unknown") = VStr s.

(** Results that have neither passed nor failed. *)
Definition neither (r : PyDict) : bool :=
  (negb (has_status "passed" r) && negb (has_status "failed" r))%bool.

(** A provider whose every call fails. *)
Definition failing_provider_world : World :=
  mkWorld (fun _ => 0%float) 0 (fun _ => "2024-01-01T00:00:00") (fun _ => 0) 0
          (fun _ _ _ => Raise (mkExc "ConnectionError" "network unreachable")) 0
          (Some (fun _ => Raise (mkExc "RateLimitError" "quota exceeded"))) 0.

(** ** Writing the report: [generate_test_report] of tests/test_runner.py *)

(** [a / b] for two ints: correctly rounded, with the sign of the quotient
    also on a zero; it raises on a zero divisor and when the rounded quotient
    is beyond the largest float. *)
Definition int_truediv_checked (a b : Z) : Outcome float :=
  if b =? 0 then Raise (mkExc "ZeroDivisionError" "division by zero")
  else if (2 ^ 1024 - 2 ^ 970) * Z.abs b <=? Z.abs a then
    Raise (OverflowError "integer division result too large for a float")
  else
    let s := xorb (a <? 0) (b <? 0) in
    Ok (match Z.abs a, Z.abs b with
        | Z.pos p, Z.pos q => nearest_quotient s p q
        | _, _ => if s then PrimFloat.neg_zero else PrimFloat.zero
        end).

Definition as_int (v : PyVal) : option Z :=
  match v with
  | VInt z => Some z
  | VBool b => Some (bool_int b)
  | _ => None
  end.

Definition is_number (v : PyVal) : bool :=
  match v with
  | VInt _ | VBool _ | VFloat _ => true
  | _ => false
  end.

Definition as_float (v : PyVal) : Outcome float :=
  match v with
  | VFloat x => Ok x
  | VInt z => int_to_float z
  | VBool b => int_to_float (bool_int b)
  | _ => Raise (TypeError "must be real number")
  end.

(** [a / b] on two dynamic values. *)
Definition py_truediv (a b : PyVal) : Outcome float :=
  if (is_number a && is_number b)%bool then
    match as_int a, as_int b with
    | Some x, Some y => int_truediv_checked x y
    | _, _ =>
        match as_float a with
        | Raise e => Raise e
        | Ok x =>
            match as_float b with
            | Raise e => Raise e
            | Ok y => float_div x y
            end
        end
    end
  else Raise (TypeError ("unsupported operand type(s) for /: '" ++ type_name a
                         ++ "' and '" ++ type_name b ++ "'")).

(** [bool(v)]. *)
Definition truthy (v : PyVal) : bool :=
  match v with
  | VNone => false
  | VBool b => b
  | VInt z => negb (z =? 0)
  | VFloat x => negb (PrimFloat.eqb x PrimFloat.zero)
  | VStr s => negb (String.eqb s "")
  | VList l => match l with [] => false | _ => true end
  | VDict d => match d with [] => false | _ => true end
  end.

(** What the report writer acts on: which paths [open(path, 'w')] refuses,
    the documents written (the JSON text of a document is stood for by the
    document), and the lines printed. *)
Record Desk : Type := mkDesk {
  opening : string -> option PyExc;
  saved : list (string * PyDict);
  printed : list string
}.

Definition Writer (A : Type) : Type := Desk -> Outcome A * Desk.

Definition and_then {A B} (c : Writer A) (k : A -> Writer B) : Writer B :=
  fun d =>
    match c d with
    | (Ok a, d') => k a d'
    | (Raise e, d') => (Raise e, d')
    end.

Notation "x <~ c ;; k" := (and_then c (fun x => k))
  (at level 61, c at next level, right associativity).

Definition skip : Writer unit := fun d => (Ok tt, d).

Definition from_outcome {A} (o : Outcome A) : Writer A := fun d => (o, d).

(** [print(line)]. *)
Definition py_print (line : string) : Writer unit :=
  fun d => (Ok tt, mkDesk (opening d) (saved d) (printed d ++ [line])).

(** [with open(path, 'w') as f: json.dump(doc, f, indent=2)]. *)
Definition json_dump_to (path : string) (doc : PyDict) : Writer unit :=
  fun d =>
    match opening d path with
    | Some e => (Raise e, d)
    | None => (Ok tt, mkDesk (opening d) (saved d ++ [(path, doc)]) (printed d))
    end.

Definition nl : string := String (ascii_of_nat 10) "".

Definition generate_test_report (repr_other : PyVal -> string)
           (results : PyDict) (output_file : string) : Writer unit :=
  _ <~ json_dump_to output_file results ;;
  _ <~ py_print (nl ++ "=== AI-Enhanced Test Report ===") ;;
  total <~ from_outcome (dict_item results "total_tests") ;;
  _ <~ py_print ("Total Tests: " ++ py_str repr_other total) ;;
  passed <~ from_outcome (dict_item results "passed_tests") ;;
  _ <~ py_print ("Passed: " ++ py_str repr_other passed) ;;
  failed <~ from_outcome (dict_item results "failed_tests") ;;
  _ <~ py_print ("Failed: " ++ py_str repr_other failed) ;;
  passed <~ from_outcome (dict_item results "passed_tests") ;;
  total <~ from_outcome (dict_item results "total_tests") ;;
  ratio <~ from_outcome (py_truediv passed total) ;;
  _ <~ py_print ("Success Rate: " ++ format_1f (PrimFloat.mul ratio 100) ++ "%") ;;
  _ <~ (if truthy (dict_get results "ai_analysis" VNone) then
          _ <~ py_print (nl ++ "=== AI Analysis ===") ;;
          analysis <~ from_outcome (dict_item results "ai_analysis") ;;
          py_print (py_str repr_other analysis)
        else skip) ;;
  py_print (nl ++ "Detailed report saved to: " ++ output_file).

(** The first four lines of every report. *)
Definition report_head (total passed failed : Z) : list string :=
  [(nl ++ "=== AI-Enhanced Test Report ===")%string;
   ("Total Tests: " ++ int_str total)%string;
   ("Passed: " ++ int_str passed)%string;
   ("Failed: " ++ int_str failed)%string].

(** A string of whitespace only (or empty). *)
Definition blank (s : string) : bool :=
  forallb is_space (list_ascii_of_string s).

(** The two tests on the lowercased type. *)
Definition banking_kind (kind : string) : bool :=
  (str_in "banking" kind || str_in "transaction" kind)%bool.

Definition payment_kind (kind : string) : bool :=
  (str_in "payment" kind || str_in "card" kind)%bool.

(** The store after four transfers in the quiet world: 100 from ACC001 to
    ACC002, 10 from ACC002 to itself, 50 from ACC002 to ACC001 and 25 from
    ACC001 to ACC002. *)
Fixpoint after_transfers (moves : list (string * string * float))
         (self : MockBankingAPI) (w : World) : MockBankingAPI :=
  match moves with
  | [] => self
  | (from_account, to_account, amount) :: rest =>
      match transfer_funds self (VStr from_account) (VStr to_account)
                           (VFloat amount) w with
      | (Ok (_, self'), w') => after_transfers rest self' w'
      | (Raise _, w') => after_transfers rest self w'
      end
  end.

Definition busy_bank : MockBankingAPI :=
  after_transfers [("ACC001", "ACC002", 100%float);
                   ("ACC002", "ACC002", 10%float);
                   ("ACC002", "ACC001", 50%float);
                   ("ACC001", "ACC002", 25%float)]
                  MockBankingAPI_init quiet_world.

(** The record of a transfer logged in the quiet world. *)
Definition quiet_record (from_account to_account : string) (amount : float)
  : Transaction :=
  mkTransaction "TXN100000" (VStr from_account) (VStr to_account)
                (VFloat amount) "completed" 0.

(** The first account with an id, as [next(...)] finds it. *)
Definition first_account (accts : list Account) (id : string) : option Account :=
  List.find (fun acc => String.eqb id (account_id acc)) accts.

(* ================================================================== *)
(** * Properties *)

(** ** Float comparisons *)
Lemma SFcompare_swap (x y : spec_float) :
  SFcompare y x = option_map CompOpp (SFcompare x y).
Proof.
  destruct x as [sx | sx | | sx mx ex], y as [sy | sy | | sy my ey];
    try reflexivity;
    try (destruct sx; reflexivity);
    try (destruct sy; reflexivity);
    try (destruct sx, sy; reflexivity).
  cbn. destruct sx, sy; cbn; try reflexivity.
  - rewrite (Z.compare_antisym ey ex).
    destruct (ey ?= ex); cbn; try reflexivity.
    rewrite !Pos.compare_cont_spec. cbn.
    rewrite (Pos.compare_antisym my mx). destruct (my ?= mx)%positive; reflexivity.
  - rewrite (Z.compare_antisym ey ex).
    destruct (ey ?= ex); cbn; try reflexivity.
    rewrite !Pos.compare_cont_spec. cbn.
    rewrite (Pos.compare_antisym my mx). destruct (my ?= mx)%positive; reflexivity.
Qed.

Lemma leb_not_ltb (x a : float) :
  PrimFloat.leb x a = true -> PrimFloat.ltb a x = false.
Proof.
  rewrite leb_spec, ltb_spec. unfold SFleb, SFltb.
  rewrite (SFcompare_swap (Prim2SF x) (Prim2SF a)).
  destruct (SFcompare (Prim2SF x) (Prim2SF a)) as [[ | | ] | ]; cbn; congruence.
Qed.

Lemma nonneg_not_below_nonpos (a x : float) :
  PrimFloat.leb PrimFloat.zero a = true -> PrimFloat.leb x PrimFloat.zero = true ->
  PrimFloat.ltb a x = false.
Proof.
  rewrite !leb_spec, ltb_spec. unfold SFleb, SFltb.
  change (Prim2SF PrimFloat.zero) with (S754_zero false).
  destruct (Prim2SF a) as [sa | sa | | sa ma ea], (Prim2SF x) as [sx | sx | | sx mx ex];
    cbn; try congruence;
    try (destruct sa; cbn; congruence);
    try (destruct sx; cbn; congruence);
    try (destruct sa, sx; cbn; congruence).
Qed.

(** ** The account store *)

Lemma find_account_nth accts id i :
  find_account accts id = Some i ->
  exists acc, nth_error accts i = Some acc /\ eq_str id (account_id acc) = true.
Proof.
  revert i; induction accts as [ | acc rest IH]; intros i H; cbn in H.
  - discriminate.
  - destruct (eq_str id (account_id acc)) eqn:E.
    + injection H as <-. exists acc. split; [reflexivity | exact E].
    + destruct (find_account rest id) as [k | ]; cbn in H; [ | discriminate].
      injection H as <-. cbn. apply IH. reflexivity.
Qed.

Lemma eq_str_VStr s t : eq_str (VStr s) t = true -> s = t.
Proof. cbn. apply String.eqb_eq. Qed.

Lemma find_account_distinct accts A B i j :
  A <> B ->
  find_account accts (VStr A) = Some i ->
  find_account accts (VStr B) = Some j ->
  i <> j.
Proof.
  intros NE HA HB ->.
  apply find_account_nth in HA as (acc & Hn & HeA).
  apply find_account_nth in HB as (acc' & Hn' & HeB).
  rewrite Hn in Hn'. injection Hn' as <-.
  apply eq_str_VStr in HeA, HeB. congruence.
Qed.

Lemma find_account_set_balance accts i b id :
  find_account (set_balance_at accts i b) id = find_account accts id.
Proof.
  revert i; induction accts as [ | acc rest IH]; intros [ | i]; cbn; try reflexivity.
  rewrite IH. reflexivity.
Qed.

Lemma balance_at_set_same accts i b acc :
  nth_error accts i = Some acc ->
  balance_at (set_balance_at accts i b) i = b.
Proof.
  unfold balance_at.
  revert i; induction accts as [ | a rest IH]; intros [ | i] H; cbn in *; try discriminate.
  - reflexivity.
  - apply IH. exact H.
Qed.

Lemma balance_at_set_other accts i j b :
  i <> j ->
  balance_at (set_balance_at accts i b) j = balance_at accts j.
Proof.
  unfold balance_at.
  revert i j; induction accts as [ | a rest IH]; intros [ | i] [ | j] H; cbn; try reflexivity.
  - congruence.
  - apply IH. congruence.
Qed.

Lemma balance_of_find accts A a :
  balance_of accts A = Some a ->
  exists i, find_account accts (VStr A) = Some i /\ balance_at accts i = a.
Proof.
  unfold balance_of. destruct (find_account accts (VStr A)) as [i | ]; cbn; [ | discriminate].
  intros [= <-]. exists i. split; reflexivity.
Qed.

Lemma transfer_funds_float self A B x w :
  transfer_funds self (VStr A) (VStr B) (VFloat x) w =
  match find_account (accounts self) (VStr A) with
  | None => (Ok (error_response 404 "Source account not found" (elapsed w 1), self), tick_n 2 w)
  | Some i =>
    match find_account (accounts self) (VStr B) with
    | None => (Ok (error_response 404 "Destination account not found" (elapsed w 1), self), tick_n 2 w)
    | Some j =>
      if PrimFloat.ltb (balance_at (accounts self) i) x then
        (Ok (error_response 400 "Insufficient funds" (elapsed w 1), self), tick_n 2 w)
      else
        let accts1 := set_balance_at (accounts self) i (PrimFloat.sub (balance_at (accounts self) i) x) in
        let accts2 := set_balance_at accts1 j (PrimFloat.add (balance_at accts1 j) x) in
        let t := transfer_record (VStr A) (VStr B) (VFloat x) w in
        (Ok (mkAPIResponse 200 (VDict (txn_dict t)) json_headers (elapsed w 2) true,
             append_transaction (with_accounts self accts2) t),
         rolled (tick_n 3 w))
    end
  end.
Proof.
  unfold transfer_funds, bind, time_time, lift, ret, randint, elapsed, tick_n, transfer_record.
  cbn [float_lt float_isub float_iadd float_operand].
  destruct (find_account (accounts self) (VStr A)) as [i | ].
  2:{ cbn. rewrite Nat.add_1_r. reflexivity. }
  destruct (find_account (accounts self) (VStr B)) as [j | ].
  2:{ cbn. rewrite Nat.add_1_r. reflexivity. }
  destruct (PrimFloat.ltb (balance_at (accounts self) i) x).
  - cbn. rewrite Nat.add_1_r. reflexivity.
  - cbn. rewrite Nat.add_comm. reflexivity.
Qed.

Lemma set_balance_at_length accts i v :
  List.length (set_balance_at accts i v) = List.length accts.
Proof.
  revert i; induction accts as [ | c r IH]; intros [ | i]; cbn; auto.
Qed.

(** The transfer goes through as soon as the balance test [a < x] is false:
    this is the fact the statements about successful transfers share. *)
Lemma transfer_funds_applies self A B a b x w :
  A <> B ->
  balance_of (accounts self) A = Some a ->
  balance_of (accounts self) B = Some b ->
  PrimFloat.ltb a x = false ->
  exists resp self' w',
    transfer_funds self (VStr A) (VStr B) (VFloat x) w = (Ok (resp, self'), w') /\
    status_code resp = 200 /\ success resp = true /\
    balance_of (accounts self') A = Some (PrimFloat.sub a x) /\
    balance_of (accounts self') B = Some (PrimFloat.add b x) /\
    (forall C, C <> A -> C <> B ->
               balance_of (accounts self') C = balance_of (accounts self) C) /\
    (exists t, transactions self' = transactions self ++ [t] /\
               txn_status t = "completed" /\
               txn_from_account t = VStr A /\ txn_to_account t = VStr B /\
               txn_amount t = VFloat x /\ data resp = VDict (txn_dict t)).
Proof.
  intros NE HA HB Hlt.
  apply balance_of_find in HA as (i & Hi & Hai).
  apply balance_of_find in HB as (j & Hj & Hbj).
  pose proof (find_account_distinct _ _ _ _ _ NE Hi Hj) as Hij.
  destruct (find_account_nth _ _ _ Hi) as (accA & HnA & _).
  destruct (find_account_nth _ _ _ Hj) as (accB & HnB & _).
  rewrite transfer_funds_float, Hi, Hj, Hai, Hlt. cbv zeta.
  rewrite (balance_at_set_other _ i j _ Hij), Hbj.
  do 3 eexists. split; [reflexivity | ].
  split; [reflexivity | ]. split; [reflexivity | ].
  cbn [accounts append_transaction with_accounts transactions].
  split; [ | split; [ | split]].
  - unfold balance_of. rewrite !find_account_set_balance, Hi. cbn.
    rewrite balance_at_set_other by congruence.
    rewrite (balance_at_set_same _ _ _ _ HnA). reflexivity.
  - unfold balance_of. rewrite !find_account_set_balance, Hj. cbn.
    destruct (nth_error (set_balance_at (accounts self) i (PrimFloat.sub a x)) j)
      as [acc | ] eqn:E.
    + rewrite (balance_at_set_same _ _ _ _ E). reflexivity.
    + apply nth_error_None in E. rewrite set_balance_at_length in E.
      apply nth_error_None in E. congruence.
  - intros C NA NB. unfold balance_of. rewrite !find_account_set_balance.
    destruct (find_account (accounts self) (VStr C)) as [k | ] eqn:Hk;
      [ | reflexivity].
    cbn. f_equal.
    assert (i <> k) by (apply (find_account_distinct (accounts self) A C); auto).
    assert (j <> k) by (apply (find_account_distinct (accounts self) B C); auto).
    rewrite !balance_at_set_other by assumption. reflexivity.
  - eexists. split; [reflexivity | ]. cbn. repeat split; reflexivity.
Qed.

(** ** Transfers *)

(** C1 (as amended). For two distinct existing accounts [A], [B] with balances
    [a], [b] and an amount [x <= a], [transfer_funds] returns status 200 with
    [success = True]; afterwards the balance of [A] is the float [a - x], the
    balance of [B] is the float [b + x], every other account keeps its
    balance, and one completed transaction (from [A] to [B], amount [x], the
    response's payload) is appended to the log. The two balances are the
    rounded results of binary64 arithmetic: their exact sum is the exact sum
    of [a] and [b] whenever neither operation rounded. *)
Theorem transfer_funds_moves_amount self A B a b x w :
  A <> B ->
  balance_of (accounts self) A = Some a ->
  balance_of (accounts self) B = Some b ->
  PrimFloat.leb x a = true ->
  exists resp self' w',
    transfer_funds self (VStr A) (VStr B) (VFloat x) w = (Ok (resp, self'), w') /\
    status_code resp = 200 /\ success resp = true /\
    balance_of (accounts self') A = Some (PrimFloat.sub a x) /\
    balance_of (accounts self') B = Some (PrimFloat.add b x) /\
    (forall C, C <> A -> C <> B ->
               balance_of (accounts self') C = balance_of (accounts self) C) /\
    (exists t, transactions self' = transactions self ++ [t] /\
               txn_status t = "completed" /\
               txn_from_account t = VStr A /\ txn_to_account t = VStr B /\
               txn_amount t = VFloat x /\ data resp = VDict (txn_dict t)) /\
    (exact_sub a x -> exact_add b x ->
     (float_value (PrimFloat.sub a x) + float_value (PrimFloat.add b x)
      == float_value a + float_value b)%Q).
Proof.
  intros NE HA HB Hle.
  destruct (transfer_funds_applies self A B a b x w NE HA HB
              (leb_not_ltb _ _ Hle))
    as (resp & self' & w' & Hrun & Hcode & Hok & HbA & HbB & Hframe & Hlog).
  exists resp, self', w'. repeat (split; [assumption | ]).
  unfold exact_sub, exact_add. intros -> ->. ring.
Qed.

(** Moving 100 from ACC001 (5000) to ACC002 (15000) in the fresh store: both
    operations are exact and the balances become 4900 and 15100. *)
Lemma transfer_funds_moves_amount_witness :
  exists resp self' w',
    transfer_funds MockBankingAPI_init (VStr "ACC001") (VStr "ACC002")
                   (VFloat 100) quiet_world = (Ok (resp, self'), w') /\
    status_code resp = 200 /\ success resp = true /\
    balance_of (accounts self') "ACC001" = Some (PrimFloat.sub 5000 100) /\
    balance_of (accounts self') "ACC002" = Some (PrimFloat.add 15000 100) /\
    (forall C, C <> "ACC001" -> C <> "ACC002" ->
               balance_of (accounts self') C
               = balance_of (accounts MockBankingAPI_init) C) /\
    (exists t, transactions self' = transactions MockBankingAPI_init ++ [t] /\
               txn_status t = "completed" /\
               txn_from_account t = VStr "ACC001" /\
               txn_to_account t = VStr "ACC002" /\
               txn_amount t = VFloat 100 /\ data resp = VDict (txn_dict t)) /\
    (exact_sub 5000 100 -> exact_add 15000 100 ->
     (float_value (PrimFloat.sub 5000 100) + float_value (PrimFloat.add 15000 100)
      == float_value 5000 + float_value 15000)%Q).
Proof.
  apply (transfer_funds_moves_amount MockBankingAPI_init "ACC001" "ACC002"
           5000 15000 100 quiet_world).
  - discriminate.
  - reflexivity.
  - reflexivity.
  - reflexivity.
Defined.

(** C1 as stated fails on the sum. Two ordinary transfers from ACC001 to
    ACC002 in the fresh store, 4978.22 and then 10.24, both within the balance
    and both successful: before the second one the two balances add up to
    20000.0, after it to 20000.000000000004. *)
Lemma transfer_funds_sum_not_conserved :
  exists r1 s1 w1 r2 s2 w2 a b,
    transfer_funds MockBankingAPI_init (VStr "ACC001") (VStr "ACC002")
                   (VFloat 4978.22) quiet_world = (Ok (r1, s1), w1) /\
    balance_of (accounts s1) "ACC001" = Some a /\
    balance_of (accounts s1) "ACC002" = Some b /\
    PrimFloat.leb 10.24 a = true /\
    transfer_funds s1 (VStr "ACC001") (VStr "ACC002") (VFloat 10.24) w1
      = (Ok (r2, s2), w2) /\
    status_code r2 = 200 /\ success r2 = true /\
    balance_of (accounts s2) "ACC001" = Some (PrimFloat.sub a 10.24) /\
    balance_of (accounts s2) "ACC002" = Some (PrimFloat.add b 10.24) /\
    PrimFloat.add a b = 20000%float /\
    PrimFloat.add (PrimFloat.sub a 10.24) (PrimFloat.add b 10.24)
      = 20000.000000000004%float /\
    PrimFloat.eqb (PrimFloat.add (PrimFloat.sub a 10.24) (PrimFloat.add b 10.24))
                  (PrimFloat.add a b) = false.
Proof.
  do 8 eexists.
  split; [vm_compute; reflexivity | ].
  split; [vm_compute; reflexivity | ].
  split; [vm_compute; reflexivity | ].
  split; [vm_compute; reflexivity | ].
  split; [vm_compute; reflexivity | ].
  repeat split; vm_compute; reflexivity.
Qed.




(** C10 (as amended). No test rejects an amount for its sign: for two distinct
    existing accounts and an amount [x <= 0] that is not above the source
    balance (as is every such amount when the source balance is not negative),
    the transfer succeeds with status 200, the source balance becomes the
    float [a - x] and the destination balance the float [b + x]. *)
Theorem transfer_funds_nonpositive_amount self A B a b x w :
  A <> B ->
  balance_of (accounts self) A = Some a ->
  balance_of (accounts self) B = Some b ->
  PrimFloat.leb x 0 = true ->
  PrimFloat.leb 0 a = true \/ PrimFloat.ltb a x = false ->
  exists resp self' w',
    transfer_funds self (VStr A) (VStr B) (VFloat x) w = (Ok (resp, self'), w') /\
    status_code resp = 200 /\ success resp = true /\
    balance_of (accounts self') A = Some (PrimFloat.sub a x) /\
    balance_of (accounts self') B = Some (PrimFloat.add b x).
Proof.
  intros NE HA HB Hx Ha.
  assert (PrimFloat.ltb a x = false) as Hlt.
  { destruct Ha as [Ha | Ha]; [ | exact Ha].
    apply nonneg_not_below_nonpos; assumption. }
  destruct (transfer_funds_applies self A B a b x w NE HA HB Hlt)
    as (resp & self' & w' & Hrun & Hcode & Hok & HbA & HbB & _).
  exists resp, self', w'. repeat split; assumption.
Qed.

(** An amount of -250 from ACC001 to ACC002 in the fresh store: ACC001 rises
    to 5250 and ACC002 falls to 14750. *)
Lemma transfer_funds_nonpositive_amount_witness :
  exists resp self' w',
    transfer_funds MockBankingAPI_init (VStr "ACC001") (VStr "ACC002")
                   (VFloat (-250)) quiet_world = (Ok (resp, self'), w') /\
    status_code resp = 200 /\ success resp = true /\
    balance_of (accounts self') "ACC001" = Some (PrimFloat.sub 5000 (-250)) /\
    balance_of (accounts self') "ACC002" = Some (PrimFloat.add 15000 (-250)).
Proof.
  apply (transfer_funds_nonpositive_amount MockBankingAPI_init "ACC001" "ACC002"
           5000 15000 (-250) quiet_world).
  - discriminate.
  - reflexivity.
  - reflexivity.
  - reflexivity.
  - left. reflexivity.
Defined.

(** C10 as stated fails once a balance is negative. In the fresh store an
    amount of -20000 from ACC001 to ACC002 succeeds and leaves ACC002 at
    -5000; an amount of -1 from ACC002 to ACC001 is then refused with status
    400 although the two accounts exist, are distinct, and [-1 <= 0]. *)
Lemma transfer_funds_negative_amount_refused :
  exists r1 s1 w1 r2 s2 w2,
    transfer_funds MockBankingAPI_init (VStr "ACC001") (VStr "ACC002")
                   (VFloat (-20000)) quiet_world = (Ok (r1, s1), w1) /\
    success r1 = true /\
    balance_of (accounts s1) "ACC002" = Some (-5000)%float /\
    balance_of (accounts s1) "ACC001" = Some 25000%float /\
    PrimFloat.leb (-1) 0 = true /\
    transfer_funds s1 (VStr "ACC002") (VStr "ACC001") (VFloat (-1)) w1
      = (Ok (r2, s2), w2) /\
    status_code r2 = 400 /\ success r2 = false /\ s2 = s1.
Proof.
  do 6 eexists.
  split; [vm_compute; reflexivity | ].
  repeat split; vm_compute; reflexivity.
Qed.

(** ** The fallback generator and the fallback analysis *)

(** C3. For every specification the fallback generator returns exactly three
    test cases, in this order: "<name> Happy Path Test" (priority high),
    "<name> Error Handling Test" (priority medium) and "<name> Security Test"
    (priority high), where <name> is the text of the specification's [name]
    entry ("Unknown API" when it has none). The result is a function of the
    specification alone: without a provider, [generate_test_cases] returns
    these three cases in every world. *)
Theorem generate_mock_test_cases_three repr_other read_test_cases api_spec :
  List.length (_generate_mock_test_cases repr_other api_spec) = 3%nat /\
  map name (_generate_mock_test_cases repr_other api_spec)
  = [(py_str repr_other (dict_get api_spec "name" (VStr "Unknown API"))
        ++ " Happy Path Test")%string;
     (py_str repr_other (dict_get api_spec "name" (VStr "Unknown API"))
        ++ " Error Handling Test")%string;
     (py_str repr_other (dict_get api_spec "name" (VStr "Unknown API"))
        ++ " Security Test")%string] /\
  map priority (_generate_mock_test_cases repr_other api_spec)
  = ["high"; "medium"; "high"] /\
  map test_type (_generate_mock_test_cases repr_other api_spec)
  = ["functional"; "functional"; "security"] /\
  (forall X, dict_lookup api_spec "name" = Some (VStr X) ->
             map name (_generate_mock_test_cases repr_other api_spec)
             = [(X ++ " Happy Path Test")%string;
                (X ++ " Error Handling Test")%string;
                (X ++ " Security Test")%string]) /\
  (forall w1 w2, openai w1 = None -> openai w2 = None ->
                 fst (generate_test_cases repr_other read_test_cases api_spec w1)
                 = Ok (_generate_mock_test_cases repr_other api_spec) /\
                 fst (generate_test_cases repr_other read_test_cases api_spec w2)
                 = fst (generate_test_cases repr_other read_test_cases api_spec w1)).
Proof.
  repeat split; try reflexivity.
  - intros X HX. unfold _generate_mock_test_cases, dict_get. rewrite HX.
    reflexivity.
  - unfold generate_test_cases. rewrite H. reflexivity.
  - unfold generate_test_cases. rewrite H, H0. reflexivity.
Qed.

(** The three cases generated for the runner's banking specification. *)
Lemma generate_mock_test_cases_three_witness :
  map name (_generate_mock_test_cases (fun _ => "")
              [("name", VStr "Banking API"); ("type", VStr "banking_api")])
  = ["Banking API Happy Path Test"; "Banking API Error Handling Test";
     "Banking API Security Test"].
Proof.
  destruct (generate_mock_test_cases_three (fun _ => "") (fun _ => None)
              [("name", VStr "Banking API"); ("type", VStr "banking_api")])
    as (_ & _ & _ & _ & Hnamed & _).
  apply (Hnamed "Banking API"). reflexivity.
Defined.

Lemma is_passed_iff (r : PyDict) :
  is_passed r = true <-> dict_lookup r "status" = Some (VStr "passed").
Proof.
  unfold is_passed, dict_get.
  destruct (dict_lookup r "status") as [[ | | | | s | | ] | ]; cbn;
    try (split; discriminate).
  split.
  - intros H. apply String.eqb_eq in H. subst. reflexivity.
  - intros [= ->]. reflexivity.
Qed.

(** A digit prints as one character. *)
Lemma int_str_digit d :
  0 <= d < 10 -> String.length (int_str d) = 1%nat.
Proof.
  intros H.
  assert (d = 0 \/ d = 1 \/ d = 2 \/ d = 3 \/ d = 4 \/ d = 5 \/ d = 6 \/ d = 7
          \/ d = 8 \/ d = 9) as Hd by lia.
  repeat (destruct Hd as [-> | Hd]; [reflexivity | ]). subst. reflexivity.
Qed.

(** The one-decimal format of a finite float: an optional sign, the integer
    part, a point and exactly one digit. *)
Lemma format_1f_one_decimal x s n :
  scaled_digits x 1 = Some (s, n) ->
  format_1f x
  = ((if s then "-" else "") ++ int_str (n / 10) ++ "." ++ int_str (n mod 10))%string /\
  String.length (int_str (n mod 10)) = 1%nat.
Proof.
  intros H. unfold format_1f. rewrite H. split; [reflexivity | ].
  apply int_str_digit. apply Z.mod_pos_bound. lia.
Qed.

(** C8. For every list of result records the fallback analysis reports
    [total_tests] = the length of the list, [passed_tests] = the number of
    records whose status is "passed", [failed_tests] = their difference,
    [overall_health] = "Good" when passed exceeds failed and "Needs Attention"
    otherwise, [success_rate] = "0%" for the empty list and otherwise
    passed / total * 100 printed with one decimal and a percent sign, and the
    three fixed recommendations; seven passed and three failed records give
    10, 7, 3, "Good" and "70.0%". The one-decimal print of a finite float is
    an optional sign, the integer part, a point and exactly one digit. *)
Theorem generate_mock_analysis_fields results :
  (forall r, is_passed r = true <-> dict_lookup r "status" = Some (VStr "passed")) /\
  dict_lookup (_generate_mock_analysis results) "total_tests"
  = Some (VInt (Z.of_nat (List.length results))) /\
  dict_lookup (_generate_mock_analysis results) "passed_tests"
  = Some (VInt (Z.of_nat (List.length (filter is_passed results)))) /\
  dict_lookup (_generate_mock_analysis results) "failed_tests"
  = Some (VInt (Z.of_nat (List.length results)
                - Z.of_nat (List.length (filter is_passed results)))) /\
  dict_lookup (_generate_mock_analysis results) "overall_health"
  = Some (VStr (if Z.of_nat (List.length results)
                   - Z.of_nat (List.length (filter is_passed results))
                   <? Z.of_nat (List.length (filter is_passed results))
                then "Good" else "Needs Attention")) /\
  dict_lookup (_generate_mock_analysis results) "success_rate"
  = Some (VStr (match results with
                | [] => "0%"
                | _ => format_1f
                         (PrimFloat.mul
                            (int_truediv
                               (Z.of_nat (List.length (filter is_passed results)))
                               (Z.of_nat (List.length results)))
                            100) ++ "%"
                end)%string) /\
  dict_lookup (_generate_mock_analysis results) "recommendations"
  = Some (VList [VStr "Review failed tests for patterns";
                 VStr "Add more edge case testing";
                 VStr "Consider load testing for performance validation"]) /\
  (forall x s n,
      scaled_digits x 1 = Some (s, n) ->
      format_1f x
      = ((if s then "-" else "") ++ int_str (n / 10) ++ "."
         ++ int_str (n mod 10))%string /\
      String.length (int_str (n mod 10)) = 1%nat) /\
  _generate_mock_analysis seven_passed_three_failed
  = [("overall_health", VStr "Good"); ("success_rate", VStr "70.0%");
     ("total_tests", VInt 10); ("passed_tests", VInt 7);
     ("failed_tests", VInt 3); ("recommendations", VList RECOMMENDATIONS)].
Proof.
  split; [exact is_passed_iff | ].
  do 4 (split; [reflexivity | ]).
  split.
  { unfold _generate_mock_analysis.
    cbn [dict_lookup String.eqb Ascii.eqb Bool.eqb].
    destruct results as [ | r rest]; [reflexivity | ].
    replace (0 <? Z.of_nat (List.length (r :: rest))) with true;
      [reflexivity | ].
    symmetry. apply Z.ltb_lt. cbn [List.length]. lia. }
  split; [reflexivity | ].
  split; [exact format_1f_one_decimal | reflexivity].
Qed.

(** ** Balances *)

(** X1. A balance asked for an id that no account has: status 404, no
    success, and no exception. *)
Theorem get_account_balance_unknown self id w :
  find_account (accounts self) id = None ->
  exists resp w',
    get_account_balance self id w = (Ok resp, w') /\
    status_code resp = 404 /\ success resp = false /\
    data resp = VDict [("error", VStr "Account not found")].
Proof.
  intros H. unfold get_account_balance, bind, time_time, ret. rewrite H.
  do 2 eexists. split; [reflexivity | ]. repeat split; reflexivity.
Qed.

Lemma get_account_balance_unknown_witness :
  exists resp w',
    get_account_balance MockBankingAPI_init (VStr "ACC999") quiet_world
    = (Ok resp, w') /\
    status_code resp = 404 /\ success resp = false /\
    data resp = VDict [("error", VStr "Account not found")].
Proof.
  apply (get_account_balance_unknown MockBankingAPI_init (VStr "ACC999")
           quiet_world).
  reflexivity.
Defined.

Lemma find_account_first accts id i :
  find_account accts (VStr id) = Some i ->
  first_account accts id = nth_error accts i.
Proof.
  unfold first_account. revert i.
  induction accts as [ | acc rest IH]; intros i H; cbn in H; [discriminate | ].
  cbn [List.find].
  destruct (String.eqb id (account_id acc)).
  - injection H as <-. reflexivity.
  - destruct (find_account rest (VStr id)) as [k | ]; cbn in H; [ | discriminate].
    injection H as <-. cbn [nth_error]. apply IH. reflexivity.
Qed.

(** X2. A balance asked for an existing id: status 200, and the payload holds
    the id, the balance and the currency of the first account with that id,
    and the second clock reading as timestamp; three clock readings are
    made. *)
Theorem get_account_balance_known self id a w :
  balance_of (accounts self) id = Some a ->
  exists resp acc,
    get_account_balance self (VStr id) w = (Ok resp, tick_n 3 w) /\
    first_account (accounts self) id = Some acc /\
    balance acc = a /\
    status_code resp = 200 /\ success resp = true /\
    data resp = VDict [("account_id", VStr id); ("balance", VFloat a);
                       ("currency", VStr (currency acc));
                       ("timestamp", VFloat (clock w (S (clock_reads w))))].
Proof.
  intros H. apply balance_of_find in H as (i & Hi & Ha).
  pose proof (find_account_first _ _ _ Hi) as Hfirst.
  destruct (find_account_nth _ _ _ Hi) as (acc & Hnth & _).
  unfold get_account_balance, bind, time_time, ret. rewrite Hi.
  unfold balance_at in Ha |- *. rewrite Hnth in Ha |- *. subst a.
  eexists. exists acc.
  split; [reflexivity | ]. split; [congruence | ].
  repeat split; reflexivity.
Qed.

Lemma get_account_balance_known_witness :
  exists resp,
    get_account_balance busy_bank (VStr "ACC002") quiet_world
    = (Ok resp, tick_n 3 quiet_world) /\
    status_code resp = 200 /\ success resp = true /\
    data resp = VDict [("account_id", VStr "ACC002"); ("balance", VFloat 15075);
                       ("currency", VStr "USD"); ("timestamp", VFloat 0)].
Proof.
  destruct (get_account_balance_known busy_bank "ACC002" 15075 quiet_world)
    as (resp & acc & Hrun & Hfirst & _ & Hstatus & Hsuccess & Hdata);
    [vm_compute; reflexivity | ].
  vm_compute in Hfirst. injection Hfirst as <-.
  exists resp. repeat split; assumption.
Defined.

(** ** Transaction history *)

(** With a positive limit the page holds the last [limit] transactions that
    touch the account, oldest first, and the count is that of all of them. *)
Lemma history_page_positive self id limit :
  0 < limit ->
  history_page self id limit
  = (skipn (List.length (filter (touches id) (transactions self))
            - Z.to_nat limit)
           (filter (touches id) (transactions self)),
     Z.of_nat (List.length (filter (touches id) (transactions self)))).
Proof.
  intros Hpos. unfold history_page, slice_from. f_equal.
  replace (- limit <? 0) with true by (symmetry; apply Z.ltb_lt; lia).
  f_equal. lia.
Qed.

(** With limit 0 the slice [[-0:]] is the whole list. *)
Lemma history_page_zero self id :
  history_page self id 0
  = (filter (touches id) (transactions self),
     Z.of_nat (List.length (filter (touches id) (transactions self)))).
Proof.
  unfold history_page, slice_from. cbn [Z.opp Z.ltb Z.compare].
  rewrite Z.min_l by lia. reflexivity.
Qed.

(** X3. With a positive limit the history holds the [limit] most recent
    transactions of the account (all of them when there are fewer) and the
    count of all of them. *)
Theorem history_positive_limit self id limit w :
  0 < limit ->
  exists resp w',
    get_transaction_history self id limit w = (Ok resp, w') /\
    status_code resp = 200 /\ success resp = true /\
    data resp
    = VDict [("account_id", VStr id);
             ("transactions",
              VList (map (fun t => VDict (txn_dict t))
                         (skipn (List.length (filter (touches id) (transactions self))
                                 - Z.to_nat limit)
                                (filter (touches id) (transactions self)))));
             ("total_count",
              VInt (Z.of_nat (List.length (filter (touches id)
                                                  (transactions self)))))].
Proof.
  intros Hpos. unfold get_transaction_history, bind, time_time, ret.
  rewrite (history_page_positive self id limit Hpos).
  do 2 eexists. split; [reflexivity | ]. repeat split; reflexivity.
Qed.

(** The log of the busy store: four transactions, three of which touch
    ACC001. *)
Lemma busy_bank_log :
  transactions busy_bank
  = [quiet_record "ACC001" "ACC002" 100; quiet_record "ACC002" "ACC002" 10;
     quiet_record "ACC002" "ACC001" 50; quiet_record "ACC001" "ACC002" 25].
Proof. vm_compute. reflexivity. Qed.

Lemma history_positive_limit_witness :
  exists resp w',
    get_transaction_history busy_bank "ACC001" 2 quiet_world = (Ok resp, w') /\
    status_code resp = 200 /\ success resp = true /\
    data resp
    = VDict [("account_id", VStr "ACC001");
             ("transactions",
              VList [VDict (txn_dict (quiet_record "ACC002" "ACC001" 50));
                     VDict (txn_dict (quiet_record "ACC001" "ACC002" 25))]);
             ("total_count", VInt 3)].
Proof.
  apply (history_positive_limit busy_bank "ACC001" 2 quiet_world).
  reflexivity.
Defined.

(** C6 at its failing input. After one transfer of 100 from ACC001 to ACC002
    in the fresh store, the history of ACC001 asked with limit 0 holds that
    transaction: the list is not empty. *)
Lemma history_limit_zero_returns_all :
  exists r1 s1 w1 resp w2 t,
    transfer_funds MockBankingAPI_init (VStr "ACC001") (VStr "ACC002")
                   (VFloat 100) quiet_world = (Ok (r1, s1), w1) /\
    transactions s1 = [t] /\
    get_transaction_history s1 "ACC001" 0 w1 = (Ok resp, w2) /\
    data resp = VDict [("account_id", VStr "ACC001");
                       ("transactions", VList [VDict (txn_dict t)]);
                       ("total_count", VInt 1)].
Proof.
  do 6 eexists.
  split; [vm_compute; reflexivity | ].
  split; [vm_compute; reflexivity | ].
  split; vm_compute; reflexivity.
Qed.

(** ** The report of a run *)

Lemma with_status_filter want rs :
  Forall (fun r => dict_lookup r "status" <> None) rs ->
  with_status want rs = Ok (filter (has_status want) rs).
Proof.
  induction 1 as [ | r rest Hr _ IH]; cbn; [reflexivity | ].
  unfold dict_item, has_status, dict_get.
  destruct (dict_lookup r "status") as [v | ]; [ | congruence].
  rewrite IH. reflexivity.
Qed.

(** On results that all carry a status the report is built, with these
    counts. *)
Lemma report_record_counts all_results analysis w :
  Forall (fun r => dict_lookup r "status" <> None) all_results ->
  exists report w',
    report_record all_results analysis w = (Ok report, w') /\
    dict_lookup report "test_results" = Some (VList (map VDict all_results)) /\
    dict_lookup report "total_tests"
    = Some (VInt (Z.of_nat (List.length all_results))) /\
    dict_lookup report "passed_tests"
    = Some (VInt (Z.of_nat (List.length (filter (has_status "passed") all_results)))) /\
    dict_lookup report "failed_tests"
    = Some (VInt (Z.of_nat (List.length (filter (has_status "failed") all_results)))).
Proof.
  intros Hall. unfold report_record, bind, lift, now_isoformat, ret.
  rewrite !(with_status_filter _ _ Hall).
  do 2 eexists. split; [reflexivity | ]. repeat split; reflexivity.
Qed.

Lemma report_record_one_of_each :
  exists report w',
    report_record one_of_each [] quiet_world = (Ok report, w') /\
    dict_lookup report "test_results" = Some (VList (map VDict one_of_each)) /\
    dict_lookup report "total_tests" = Some (VInt 4) /\
    dict_lookup report "passed_tests" = Some (VInt 1) /\
    dict_lookup report "failed_tests" = Some (VInt 1).
Proof.
  apply (report_record_counts one_of_each [] quiet_world).
  repeat constructor; discriminate.
Qed.

(** Every record the executor returns carries a status. *)
Lemma execute_test_case_has_status repr_other test_case api_spec w r w' :
  _execute_test_case repr_other test_case api_spec w = (Ok r, w') ->
  dict_lookup r "status" <> None.
Proof.
  unfold _execute_test_case, try_except, execute_body, execute_handler.
  unfold bind at 1.
  match goal with
  | |- context [match ?d w with _ => _ end] => destruct (d w) as [[res | e] w1]
  end.
  - unfold bind, lift, now_isoformat, ret.
    destruct (dict_item res "status") as [status | e].
    + intros [= <- _]. cbn. discriminate.
    + intros [= <- _]. cbn. discriminate.
  - unfold bind, now_isoformat, ret. intros [= <- _]. cbn. discriminate.
Qed.

Lemma execute_all_has_status repr_other api_spec test_cases :
  forall all_results w results w',
    Forall (fun r => dict_lookup r "status" <> None) all_results ->
    execute_all repr_other test_cases api_spec all_results w = (Ok results, w') ->
    Forall (fun r => dict_lookup r "status" <> None) results.
Proof.
  induction test_cases as [ | test_case rest IH]; intros all_results w results w' Hall.
  - cbn. unfold ret. intros [= <- _]. exact Hall.
  - cbn [execute_all]. unfold bind at 1.
    destruct (_execute_test_case repr_other test_case api_spec w)
      as [[r | e] w1] eqn:Hrun; [ | discriminate].
    apply IH. apply Forall_app. split; [exact Hall | ].
    constructor; [ | constructor].
    apply (execute_test_case_has_status _ _ _ _ _ _ Hrun).
Qed.

Lemma run_specs_has_status repr_other read_test_cases knowledge_base api_specs :
  forall all_results w results w',
    Forall (fun r => dict_lookup r "status" <> None) all_results ->
    run_specs repr_other read_test_cases knowledge_base api_specs all_results w
    = (Ok results, w') ->
    Forall (fun r => dict_lookup r "status" <> None) results.
Proof.
  induction api_specs as [ | api_spec rest IH]; intros all_results w results w' Hall.
  - cbn. unfold ret. intros [= <- _]. exact Hall.
  - cbn [run_specs]. unfold bind at 1.
    destruct (generate_test_cases repr_other read_test_cases api_spec w)
      as [[test_cases | e] w1]; [ | discriminate].
    unfold bind at 1, lift.
    destruct (generate_domain_aware_tests repr_other knowledge_base api_spec
                "Banking and financial services") as [scenarios | e];
      [ | discriminate].
    unfold bind at 1.
    destruct (execute_all repr_other test_cases api_spec all_results w1)
      as [[all_results' | e] w2] eqn:Hrun; [ | discriminate].
    apply IH. apply (execute_all_has_status _ _ _ _ _ _ _ Hall Hrun).
Qed.

(** The analysis step never raises. *)
Lemma analyze_test_results_returns results w :
  exists analysis w', analyze_test_results results w = (Ok analysis, w').
Proof.
  unfold analyze_test_results. destruct (openai w) as [ask | ].
  - unfold try_except, bind, completion_text, ret.
    destruct (ask (completions w)); eauto.
  - unfold ret. eauto.
Qed.

(** C5 (as amended). Whenever the tests of a run have been executed, the run
    returns its report, in which [passed_tests] is the number of results with
    status "passed", [failed_tests] the number of results with status
    "failed", and [total_tests] the number of all results; results with any
    other status ("skipped", "error") are counted in [total_tests] only. *)
Theorem run_report_counts repr_other read_test_cases api_specs w results w1 :
  run_specs repr_other read_test_cases FINANCIAL_DOMAIN_DOCS api_specs [] w
  = (Ok results, w1) ->
  exists report w',
    run_ai_generated_tests repr_other read_test_cases api_specs w
    = (Ok report, w') /\
    dict_lookup report "test_results" = Some (VList (map VDict results)) /\
    dict_lookup report "total_tests"
    = Some (VInt (Z.of_nat (List.length results))) /\
    dict_lookup report "passed_tests"
    = Some (VInt (Z.of_nat (List.length (filter (has_status "passed") results)))) /\
    dict_lookup report "failed_tests"
    = Some (VInt (Z.of_nat (List.length (filter (has_status "failed") results)))).
Proof.
  intros Hrun.
  pose proof (run_specs_has_status _ _ _ _ _ _ _ _ (Forall_nil _) Hrun) as Hall.
  unfold run_ai_generated_tests. unfold bind at 1. rewrite Hrun.
  unfold bind at 1.
  destruct (analyze_test_results_returns results w1)
    as (analysis & w2 & Han).
  rewrite Han.
  unfold report_record, bind, lift, now_isoformat, ret.
  rewrite !(with_status_filter _ _ Hall).
  do 2 eexists. split; [reflexivity | ]. repeat split; reflexivity.
Qed.

(** The run on the banking specification alone: three results, all skipped. *)
Lemma run_report_counts_witness :
  exists report w',
    run_ai_generated_tests (fun _ => "") (fun _ => None)
                           [BANKING_SPEC] quiet_world = (Ok report, w') /\
    dict_lookup report "total_tests" = Some (VInt 3) /\
    dict_lookup report "passed_tests" = Some (VInt 0) /\
    dict_lookup report "failed_tests" = Some (VInt 0).
Proof.
  destruct (run_report_counts (fun _ => "") (fun _ => None) [BANKING_SPEC]
              quiet_world
              (match run_specs (fun _ => "") (fun _ => None)
                               FINANCIAL_DOMAIN_DOCS [BANKING_SPEC] []
                               quiet_world with
               | (Ok results, _) => results
               | _ => []
               end)
              (snd (run_specs (fun _ => "") (fun _ => None)
                              FINANCIAL_DOMAIN_DOCS [BANKING_SPEC] []
                              quiet_world)))
    as (report & w' & Hrun & _ & Htotal & Hpassed & Hfailed).
  - vm_compute. reflexivity.
  - exists report, w'. split; [exact Hrun | ].
    split; [exact Htotal | ]. split; [exact Hpassed | exact Hfailed].
Defined.

(** C5 as stated fails on the runner's own sample run. Without a provider and
    without network the nine generated tests of [SAMPLE_API_SPECS] are all
    skipped: none has passed, and [failed_tests] is 0, not 9. *)
Lemma report_skipped_not_counted_failed :
  exists results w1 report w',
    run_specs (fun _ => "") (fun _ => None) FINANCIAL_DOMAIN_DOCS
              SAMPLE_API_SPECS [] quiet_world = (Ok results, w1) /\
    run_ai_generated_tests (fun _ => "") (fun _ => None) SAMPLE_API_SPECS
                           quiet_world = (Ok report, w') /\
    dict_lookup report "test_results" = Some (VList (map VDict results)) /\
    List.length results = 9%nat /\
    forallb (has_status "skipped") results = true /\
    List.length (filter (fun r => negb (has_status "passed" r)) results) = 9%nat /\
    dict_lookup report "total_tests" = Some (VInt 9) /\
    dict_lookup report "passed_tests" = Some (VInt 0) /\
    dict_lookup report "failed_tests" = Some (VInt 0).
Proof.
  do 4 eexists.
  split; [vm_compute; reflexivity | ].
  split; [vm_compute; reflexivity | ].
  repeat split; vm_compute; reflexivity.
Qed.

(** ** Knowledge lookup *)

Lemma scan_doc_fold query_lower knowledge_base relevant :
  fold_left (scan_doc query_lower) knowledge_base relevant
  = relevant ++ filter (relevant_doc query_lower) knowledge_base.
Proof.
  revert relevant.
  induction knowledge_base as [ | doc rest IH]; intros relevant; cbn.
  - rewrite app_nil_r. reflexivity.
  - rewrite IH. unfold scan_doc, relevant_doc.
    destruct (has_keyword doc); cbn; [ | reflexivity].
    destruct (has_query_word query_lower doc); cbn; [ | reflexivity].
    rewrite <- app_assoc. reflexivity.
Qed.




(** ** Exchange rates *)

Lemma table_rate_nonzero c r :
  table_rate c = Some r -> PrimFloat.eqb r PrimFloat.zero = false.
Proof.
  unfold table_rate, RATE_TABLE. cbn [mock_rates CurrencyExchangeClient_init rate_of eq_str].
  repeat (match goal with
          | |- context [String.eqb c ?k] => destruct (String.eqb c k)
          end; [intros [= <-]; reflexivity | ]).
  discriminate.
Qed.

Lemma get_exchange_rate_strings from_currency to_currency w :
  get_exchange_rate CurrencyExchangeClient_init
                    (VStr from_currency) (VStr to_currency) w
  = match table_rate from_currency, table_rate to_currency with
    | Some from_rate, Some to_rate =>
        (Ok (mkAPIResponse 200
               (VDict [("from", VStr from_currency);
                       ("to", VStr to_currency);
                       ("rate", VFloat (py_round (PrimFloat.div to_rate from_rate) 4));
                       ("timestamp", VFloat (clock w (S (clock_reads w))))])
               json_headers (elapsed w 2) true),
         tick_n 3 w)
    | _, _ =>
        (Ok (error_response 400 "Unsupported currency" (elapsed w 1)), tick_n 2 w)
    end.
Proof.
  unfold get_exchange_rate, bind, lift, time_time, ret, hashable, elapsed, tick_n.
  fold RATE_TABLE. fold (table_rate from_currency). fold (table_rate to_currency).
  destruct (table_rate from_currency) as [rf | ] eqn:Hf.
  2:{ cbn. rewrite Nat.add_1_r. reflexivity. }
  destruct (table_rate to_currency) as [rt | ] eqn:Ht.
  2:{ cbn. rewrite Nat.add_1_r. reflexivity. }
  unfold float_div. rewrite (table_rate_nonzero _ _ Hf).
  cbn. rewrite Nat.add_comm. reflexivity.
Qed.

(** C9 (as amended). For two currencies of the fixed table the response is a
    success (status 200) whose rate is [table[to] / table[from]] rounded to
    four decimal places, which gives 0.85 for USD to EUR and 1.0 for USD to
    USD; when either currency is absent from the table the response is a
    failure with [success = False] and status 400. *)
Theorem get_exchange_rate_rounded from_currency to_currency w :
  exists resp w',
    get_exchange_rate CurrencyExchangeClient_init
                      (VStr from_currency) (VStr to_currency) w = (Ok resp, w') /\
    (forall from_rate to_rate,
        table_rate from_currency = Some from_rate ->
        table_rate to_currency = Some to_rate ->
        status_code resp = 200 /\ success resp = true /\
        rate_field resp
        = Some (VFloat (py_round (PrimFloat.div to_rate from_rate) 4))) /\
    (table_rate from_currency = None \/ table_rate to_currency = None ->
     status_code resp = 400 /\ success resp = false) /\
    py_round (PrimFloat.div 0.85 1.0) 4 = 0.85%float /\
    py_round (PrimFloat.div 1.0 1.0) 4 = 1.0%float.
Proof.
  rewrite get_exchange_rate_strings.
  assert (py_round (PrimFloat.div 0.85 1.0) 4 = 0.85%float /\
          py_round (PrimFloat.div 1.0 1.0) 4 = 1.0%float) as Hvalues
      by (split; vm_compute; reflexivity).
  destruct (table_rate from_currency) as [rf | ];
    [destruct (table_rate to_currency) as [rt | ] | ];
    do 2 eexists; (split; [reflexivity | ]);
    unfold rate_field, error_response;
    cbn [status_code success data dict_lookup String.eqb Ascii.eqb Bool.eqb];
    (split; [ | split; [ | exact Hvalues]]).
  - intros a b [= <-] [= <-]. repeat split; reflexivity.
  - intros [H | H]; discriminate.
  - intros a b _ H. discriminate.
  - intros _. split; reflexivity.
  - intros a b H. discriminate.
  - intros _. split; reflexivity.
Qed.

(** Dollar to euro: both currencies are in the table. *)
Lemma get_exchange_rate_rounded_witness :
  exists resp w',
    get_exchange_rate CurrencyExchangeClient_init (VStr "USD") (VStr "EUR")
                      quiet_world = (Ok resp, w') /\
    status_code resp = 200 /\ success resp = true /\
    rate_field resp = Some (VFloat (py_round (PrimFloat.div 0.85 1.0) 4)).
Proof.
  destruct (get_exchange_rate_rounded "USD" "EUR" quiet_world)
    as (resp & w' & Hrun & Hin & _).
  exists resp, w'. split; [exact Hrun | ].
  apply (Hin 1.0%float 0.85%float); reflexivity.
Defined.

(** C9 as stated fails for EUR to GBP: the quotient of the two table entries
    is 0.8588235294117647 and the rate returned is 0.8588. *)
Lemma get_exchange_rate_not_the_quotient :
  exists resp w',
    table_rate "EUR" = Some 0.85%float /\
    table_rate "GBP" = Some 0.73%float /\
    get_exchange_rate CurrencyExchangeClient_init (VStr "EUR") (VStr "GBP")
                      quiet_world = (Ok resp, w') /\
    success resp = true /\
    rate_field resp = Some (VFloat 0.8588%float) /\
    PrimFloat.div 0.73 0.85 = 0.8588235294117647%float /\
    PrimFloat.eqb 0.8588 (PrimFloat.div 0.73 0.85) = false.
Proof.
  do 2 eexists.
  split; [reflexivity | ]. split; [reflexivity | ].
  split; [vm_compute; reflexivity | ].
  repeat split; vm_compute; reflexivity.
Qed.

(** ** The executor *)

Lemma prefix_lower p s :
  prefix p s = true -> prefix (str_lower p) (str_lower s) = true.
Proof.
  revert s; induction p as [ | a p IH]; intros [ | b s]; cbn; try congruence.
  destruct (ascii_dec a b) as [-> | ]; [ | discriminate].
  intros H. destruct (ascii_dec (ascii_lower b) (ascii_lower b)); [ | congruence].
  apply IH. exact H.
Qed.

(** A name that contains a word contains it lowercased once lowercased. *)
Lemma str_in_lower p s :
  str_in p s = true -> str_in (str_lower p) (str_lower s) = true.
Proof.
  induction s as [ | c s IH]; cbn [str_in str_lower]; rewrite !orb_true_iff.
  - intros [H | H]; [ | discriminate]. left. apply (prefix_lower p ""). exact H.
  - intros [H | H].
    + left. apply (prefix_lower p (String c s)). exact H.
    + right. apply IH. exact H.
Qed.

Lemma default_transfer_passes w :
  default_transfer w
  = (Ok [("status", VStr "passed");
         ("message", VStr "Transfer API response: 200");
         ("response_time", VFloat (elapsed w 2))],
     rolled (tick_n 3 w)).
Proof.
  unfold default_transfer, bind. rewrite transfer_funds_float. reflexivity.
Qed.

Lemma banking_type api_spec :
  eq_str (dict_get api_spec "type" (VStr "unknown")) "banking_api" = true ->
  dict_get api_spec "type" (VStr "unknown") = VStr "banking_api".
Proof.
  destruct (dict_get api_spec "type" (VStr "unknown")); cbn; try discriminate.
  intros H. apply String.eqb_eq in H. congruence.
Qed.

(** C4 (as amended). Executing a test case never raises: [_execute_test_case]
    always returns a result record. When the body of its [try] raises, the
    record has status "error" and carries the text of the exception; when the
    body returns, the record is the body's. A test case without test data
    whose lowercased name contains "transfer" and does not contain "balance",
    run against a banking specification, transfers with the defaults ACC001,
    ACC002 and 100.0, and passes with status 200. *)
Theorem execute_test_case_never_raises repr_other test_case api_spec w :
  exists result w',
    _execute_test_case repr_other test_case api_spec w = (Ok result, w') /\
    (forall e w1,
        execute_body repr_other test_case api_spec w = (Raise e, w1) ->
        dict_lookup result "status" = Some (VStr "error") /\
        dict_lookup result "message" = Some (VStr (exc_str e)) /\
        dict_lookup result "test_name" = Some (VStr (name test_case))) /\
    (forall r w1,
        execute_body repr_other test_case api_spec w = (Ok r, w1) ->
        result = r /\ w' = w1) /\
    (test_data test_case = None ->
     eq_str (dict_get api_spec "type" (VStr "unknown")) "banking_api" = true ->
     str_in "transfer" (str_lower (name test_case)) = true ->
     str_in "balance" (str_lower (name test_case)) = false ->
     _test_banking_api MockBankingAPI_init test_case = default_transfer /\
     dict_lookup result "status" = Some (VStr "passed") /\
     dict_lookup result "message" = Some (VStr "Transfer API response: 200")).
Proof.
  assert (test_data test_case = None ->
          eq_str (dict_get api_spec "type" (VStr "unknown")) "banking_api" = true ->
          str_in "transfer" (str_lower (name test_case)) = true ->
          str_in "balance" (str_lower (name test_case)) = false ->
          _test_banking_api MockBankingAPI_init test_case = default_transfer /\
          exists r,
            execute_body repr_other test_case api_spec w
            = (Ok r, tick (rolled (tick_n 3 w))) /\
            dict_lookup r "status" = Some (VStr "passed") /\
            dict_lookup r "message" = Some (VStr "Transfer API response: 200"))
    as Hdefault.
  { intros Hnone Htype Htransfer Hbalance.
    assert (_test_banking_api MockBankingAPI_init test_case = default_transfer)
      as Hdispatch.
    { unfold _test_banking_api, test_data_get.
      rewrite Hbalance, Htransfer, Hnone. reflexivity. }
    split; [exact Hdispatch | ].
    unfold execute_body. rewrite (banking_type _ Htype).
    cbn [eq_str String.eqb Ascii.eqb Bool.eqb].
    rewrite Hdispatch. unfold bind at 1. rewrite default_transfer_passes.
    eexists. split; [reflexivity | ]. split; reflexivity. }
  unfold _execute_test_case, try_except.
  destruct (execute_body repr_other test_case api_spec w) as [[r | e] w1] eqn:Hbody.
  - exists r, w1. split; [reflexivity | ].
    split; [intros e w2 H; discriminate | ].
    split; [intros r' w2 [= <- <-]; split; reflexivity | ].
    intros Hnone Htype Htransfer Hbalance.
    destruct (Hdefault Hnone Htype Htransfer Hbalance)
      as (Hdispatch & r' & Hrun & Hstatus & Hmessage).
    injection Hrun as -> _.
    repeat split; assumption.
  - do 2 eexists. split; [reflexivity | ].
    split; [intros e' w2 [= <- <-]; repeat split; reflexivity | ].
    split; [intros r' w2 H; discriminate | ].
    intros Hnone Htype Htransfer Hbalance.
    destruct (Hdefault Hnone Htype Htransfer Hbalance)
      as (_ & r' & Hrun & _).
    discriminate Hrun.
Qed.

(** The transfer test case of a banking specification passes on the defaults. *)
Lemma execute_test_case_never_raises_witness :
  exists result w',
    _execute_test_case (fun _ => "") transfer_case BANKING_SPEC quiet_world
    = (Ok result, w') /\
    _test_banking_api MockBankingAPI_init transfer_case = default_transfer /\
    dict_lookup result "status" = Some (VStr "passed") /\
    dict_lookup result "message" = Some (VStr "Transfer API response: 200").
Proof.
  destruct (execute_test_case_never_raises (fun _ => "") transfer_case
              BANKING_SPEC quiet_world)
    as (result & w' & Hrun & _ & _ & Hdefault).
  exists result, w'. split; [exact Hrun | ].
  apply Hdefault; reflexivity.
Defined.

(** An exception does occur and is converted: an amount that is a string makes
    the balance test of [transfer_funds] raise a TypeError, and the result has
    status "error" with the exception's message. *)
Lemma execute_converts_type_error :
  exists w1 result w',
    execute_body (fun _ => "") text_amount_case BANKING_SPEC quiet_world
    = (Raise (TypeError
                "'<' not supported between instances of 'float' and 'str'"), w1) /\
    _execute_test_case (fun _ => "") text_amount_case BANKING_SPEC quiet_world
    = (Ok result, w') /\
    dict_lookup result "status" = Some (VStr "error") /\
    dict_lookup result "message"
    = Some (VStr "'<' not supported between instances of 'float' and 'str'").
Proof.
  do 3 eexists.
  split; [vm_compute; reflexivity | ].
  split; [vm_compute; reflexivity | ].
  split; reflexivity.
Qed.

(** C4 as stated fails on the defaults. The name "Balance transfer check"
    contains "transfer" and the test case has no test data, yet under a
    banking specification the dispatcher takes its first branch: it asks for
    the balance of ACC001 and no transfer is made. *)
Lemma execute_balance_name_makes_no_transfer :
  exists result w',
    test_data balance_transfer_case = None /\
    str_in "transfer" (name balance_transfer_case) = true /\
    str_in "transfer" (str_lower (name balance_transfer_case)) = true /\
    eq_str (dict_get BANKING_SPEC "type" (VStr "unknown")) "banking_api" = true /\
    _execute_test_case (fun _ => "") balance_transfer_case BANKING_SPEC
                       quiet_world = (Ok result, w') /\
    dict_lookup result "message" = Some (VStr "Balance API response: 200") /\
    _test_banking_api MockBankingAPI_init balance_transfer_case
    = (response <- get_account_balance MockBankingAPI_init (VStr "ACC001") ;;
       ret (verdict "Balance API response: " response)) /\
    fst (_test_banking_api MockBankingAPI_init balance_transfer_case quiet_world)
    <> fst (default_transfer quiet_world).
Proof.
  do 2 eexists.
  split; [reflexivity | ]. split; [reflexivity | ]. split; [reflexivity | ].
  split; [reflexivity | ].
  split; [vm_compute; reflexivity | ].
  split; [reflexivity | ]. split; [reflexivity | ].
  vm_compute. discriminate.
Qed.

(** ** More on transfers *)

Lemma ltb_nan_right (a : float) : PrimFloat.ltb a PrimFloat.nan = false.
Proof.
  rewrite ltb_spec. change (Prim2SF PrimFloat.nan) with S754_nan.
  unfold SFltb. destruct (Prim2SF a); reflexivity.
Qed.

Lemma ltb_nan_left (x : float) : PrimFloat.ltb PrimFloat.nan x = false.
Proof.
  rewrite ltb_spec. change (Prim2SF PrimFloat.nan) with S754_nan.
  reflexivity.
Qed.

Lemma sub_nan_right (a : float) : PrimFloat.sub a PrimFloat.nan = PrimFloat.nan.
Proof.
  apply Prim2SF_inj. rewrite sub_spec.
  change (Prim2SF PrimFloat.nan) with S754_nan.
  destruct (Prim2SF a); reflexivity.
Qed.

Lemma add_nan_right (b : float) : PrimFloat.add b PrimFloat.nan = PrimFloat.nan.
Proof.
  apply Prim2SF_inj. rewrite add_spec.
  change (Prim2SF PrimFloat.nan) with S754_nan.
  destruct (Prim2SF b); reflexivity.
Qed.

(** X4. A NaN amount passes the balance test of every source: between two
    distinct existing accounts the transfer succeeds with status 200 and
    leaves NaN as the balance of both. *)
Theorem transfer_funds_nan_amount self A B a b w :
  A <> B ->
  balance_of (accounts self) A = Some a ->
  balance_of (accounts self) B = Some b ->
  exists resp self' w',
    transfer_funds self (VStr A) (VStr B) (VFloat PrimFloat.nan) w
    = (Ok (resp, self'), w') /\
    status_code resp = 200 /\ success resp = true /\
    balance_of (accounts self') A = Some PrimFloat.nan /\
    balance_of (accounts self') B = Some PrimFloat.nan.
Proof.
  intros NE HA HB.
  destruct (transfer_funds_applies self A B a b PrimFloat.nan w NE HA HB
              (ltb_nan_right a))
    as (resp & self' & w' & Hrun & Hcode & Hok & HbA & HbB & _).
  exists resp, self', w'.
  rewrite sub_nan_right in HbA. rewrite add_nan_right in HbB.
  repeat split; assumption.
Qed.

Lemma transfer_funds_nan_amount_witness :
  exists resp self' w',
    transfer_funds MockBankingAPI_init (VStr "ACC001") (VStr "ACC002")
                   (VFloat PrimFloat.nan) quiet_world
    = (Ok (resp, self'), w') /\
    status_code resp = 200 /\ success resp = true /\
    balance_of (accounts self') "ACC001" = Some PrimFloat.nan /\
    balance_of (accounts self') "ACC002" = Some PrimFloat.nan.
Proof.
  apply (transfer_funds_nan_amount MockBankingAPI_init "ACC001" "ACC002"
           5000 15000 quiet_world).
  - discriminate.
  - reflexivity.
  - reflexivity.
Defined.

(** X5. An account whose balance is NaN is never short of funds: a transfer
    of any float amount from it to another existing account succeeds. *)
Theorem transfer_funds_nan_balance self A B b x w :
  A <> B ->
  balance_of (accounts self) A = Some PrimFloat.nan ->
  balance_of (accounts self) B = Some b ->
  exists resp self' w',
    transfer_funds self (VStr A) (VStr B) (VFloat x) w
    = (Ok (resp, self'), w') /\
    status_code resp = 200 /\ success resp = true /\
    balance_of (accounts self') B = Some (PrimFloat.add b x).
Proof.
  intros NE HA HB.
  destruct (transfer_funds_applies self A B PrimFloat.nan b x w NE HA HB
              (ltb_nan_left x))
    as (resp & self' & w' & Hrun & Hcode & Hok & HbA & HbB & _).
  exists resp, self', w'. repeat split; assumption.
Qed.

Lemma transfer_funds_nan_balance_witness :
  exists resp self' w',
    transfer_funds nan_bank (VStr "ACC001") (VStr "ACC002") (VFloat 1000000)
                   quiet_world = (Ok (resp, self'), w') /\
    status_code resp = 200 /\ success resp = true /\
    balance_of (accounts self') "ACC002" = Some (PrimFloat.add 15000 1000000).
Proof.
  apply (transfer_funds_nan_balance nan_bank "ACC001" "ACC002" 15000 1000000
           quiet_world).
  - discriminate.
  - reflexivity.
  - reflexivity.
Defined.

(** X6. A transfer of an account to itself, with an amount within the
    balance, succeeds and logs a transaction; the debit and the credit land
    on the same record one after the other, so the balance ends as the float
    [(a - x) + x]. *)
Theorem transfer_funds_to_self self A a x w :
  balance_of (accounts self) A = Some a ->
  PrimFloat.leb x a = true ->
  exists resp self' w' t,
    transfer_funds self (VStr A) (VStr A) (VFloat x) w
    = (Ok (resp, self'), w') /\
    status_code resp = 200 /\ success resp = true /\
    balance_of (accounts self') A
    = Some (PrimFloat.add (PrimFloat.sub a x) x) /\
    transactions self' = transactions self ++ [t] /\
    txn_from_account t = VStr A /\ txn_to_account t = VStr A.
Proof.
  intros HA Hle.
  apply balance_of_find in HA as (i & Hi & Hai).
  destruct (find_account_nth _ _ _ Hi) as (acc & Hn & _).
  rewrite transfer_funds_float, Hi, Hai, (leb_not_ltb _ _ Hle). cbv zeta.
  rewrite (balance_at_set_same _ _ _ _ Hn).
  do 4 eexists. split; [reflexivity | ].
  split; [reflexivity | ]. split; [reflexivity | ].
  cbn [accounts append_transaction with_accounts transactions].
  split; [ | repeat split; reflexivity].
  unfold balance_of. rewrite !find_account_set_balance, Hi. cbn.
  destruct (nth_error (set_balance_at (accounts self) i (PrimFloat.sub a x)) i)
    as [acc' | ] eqn:E.
  - rewrite (balance_at_set_same _ _ _ _ E). reflexivity.
  - apply nth_error_None in E. rewrite set_balance_at_length in E.
    apply nth_error_None in E. congruence.
Qed.

Lemma transfer_funds_to_self_witness :
  exists resp self' w' t,
    transfer_funds MockBankingAPI_init (VStr "ACC001") (VStr "ACC001")
                   (VFloat 100) quiet_world = (Ok (resp, self'), w') /\
    status_code resp = 200 /\ success resp = true /\
    balance_of (accounts self') "ACC001"
    = Some (PrimFloat.add (PrimFloat.sub 5000 100) 100) /\
    transactions self' = transactions MockBankingAPI_init ++ [t] /\
    txn_from_account t = VStr "ACC001" /\ txn_to_account t = VStr "ACC001".
Proof.
  apply (transfer_funds_to_self MockBankingAPI_init "ACC001" 5000 100
           quiet_world); reflexivity.
Defined.

(** An id that is not a string names no account. *)
Lemma find_account_not_string accts v :
  (forall s, v <> VStr s) -> find_account accts v = None.
Proof.
  intros Hv. induction accts as [ | acc rest IH]; cbn; [reflexivity | ].
  destruct v; try (rewrite IH; reflexivity).
  exfalso. apply (Hv s). reflexivity.
Qed.

(** X7. The accounts are validated before the amount is looked at: when the
    source or the destination id names no account (as does every id that is
    not a string), the call returns status 404 and leaves the client as it
    was, whatever the amount is, a number or not. *)
Theorem transfer_funds_unknown_account self from_account to_account amount w :
  find_account (accounts self) from_account = None \/
  find_account (accounts self) to_account = None ->
  exists resp w',
    transfer_funds self from_account to_account amount w
    = (Ok (resp, self), w') /\
    status_code resp = 404 /\ success resp = false /\
    data resp
    = VDict [("error",
              VStr (match find_account (accounts self) from_account with
                    | None => "Source account not found"
                    | Some _ => "Destination account not found"
                    end))].
Proof.
  intros H. unfold transfer_funds, bind, time_time, ret.
  destruct (find_account (accounts self) from_account) as [i | ].
  - destruct H as [H | H]; [discriminate | ]. rewrite H.
    do 2 eexists. split; [reflexivity | ]. repeat split; reflexivity.
  - do 2 eexists. split; [reflexivity | ]. repeat split; reflexivity.
Qed.

Lemma transfer_funds_unknown_account_witness :
  exists resp w',
    transfer_funds MockBankingAPI_init (VInt 1) (VStr "ACC002")
                   (VStr "a lot") quiet_world
    = (Ok (resp, MockBankingAPI_init), w') /\
    status_code resp = 404 /\ success resp = false /\
    data resp = VDict [("error", VStr "Source account not found")].
Proof.
  apply (transfer_funds_unknown_account MockBankingAPI_init (VInt 1)
           (VStr "ACC002") (VStr "a lot") quiet_world).
  left. reflexivity.
Defined.

(** X8. Between two existing accounts an amount that is not a number (None, a
    string, a list, a dict) makes the balance test raise a TypeError: the call
    raises instead of returning a failure response. *)
Theorem transfer_funds_amount_not_a_number self from_account to_account amount w i j :
  find_account (accounts self) from_account = Some i ->
  find_account (accounts self) to_account = Some j ->
  not_a_number amount = true ->
  transfer_funds self from_account to_account amount w
  = (Raise (TypeError ("'<' not supported between instances of 'float' and '"
                       ++ type_name amount ++ "'")),
     tick w).
Proof.
  intros Hi Hj Hamount. unfold transfer_funds, bind, time_time, lift.
  rewrite Hi, Hj.
  destruct amount; try discriminate; reflexivity.
Qed.

Lemma transfer_funds_amount_not_a_number_witness :
  transfer_funds MockBankingAPI_init (VStr "ACC001") (VStr "ACC002") VNone
                 quiet_world
  = (Raise (TypeError ("'<' not supported between instances of 'float' and '"
                       ++ type_name VNone ++ "'")),
     tick quiet_world).
Proof.
  apply (transfer_funds_amount_not_a_number MockBankingAPI_init (VStr "ACC001")
           (VStr "ACC002") VNone quiet_world 0%nat 1%nat); reflexivity.
Defined.

(** ** More on the transaction log *)

(** A successful transfer between string ids is the last branch of
    [transfer_funds]: the log grows by the record of that world. *)
Lemma transfer_funds_success_log self A B x w resp self' w' :
  transfer_funds self (VStr A) (VStr B) (VFloat x) w = (Ok (resp, self'), w') ->
  success resp = true ->
  transactions self'
  = transactions self ++ [transfer_record (VStr A) (VStr B) (VFloat x) w] /\
  data resp = VDict (txn_dict (transfer_record (VStr A) (VStr B) (VFloat x) w)) /\
  w' = rolled (tick_n 3 w).
Proof.
  rewrite transfer_funds_float.
  destruct (find_account (accounts self) (VStr A)) as [i | ];
    [ | intros [= <- _ _]; discriminate].
  destruct (find_account (accounts self) (VStr B)) as [j | ];
    [ | intros [= <- _ _]; discriminate].
  destruct (PrimFloat.ltb (balance_at (accounts self) i) x);
    [intros [= <- _ _]; discriminate | ].
  cbv zeta. intros [= <- <- <-] _. repeat split; reflexivity.
Qed.

Lemma slice_last_one {A} (l : list A) (t : A) :
  slice_from (- (1)) (l ++ [t]) = [t].
Proof.
  unfold slice_from. rewrite length_app. cbn [List.length].
  replace (-(1) <? 0) with true by reflexivity.
  replace (Z.to_nat (Z.max 0 (-(1) + Z.of_nat (List.length l + 1))))
    with (List.length l + 0)%nat by lia.
  rewrite skipn_app, Nat.add_0_r, skipn_all.
  replace (List.length l - List.length l)%nat with 0%nat by lia.
  reflexivity.
Qed.

(** X9. Transfer, then history. After a successful transfer from [A] to [B]
    the history of [A] and that of [B], asked with limit 1, each hold exactly
    the transaction the transfer returned, and their counts have grown by
    one; the history of any other account is what it was, for every limit. *)
Theorem history_after_transfer self A B x w resp self' w' :
  transfer_funds self (VStr A) (VStr B) (VFloat x) w = (Ok (resp, self'), w') ->
  success resp = true ->
  exists t,
    data resp = VDict (txn_dict t) /\
    history_page self' A 1 = ([t], snd (history_page self A 1) + 1) /\
    history_page self' B 1 = ([t], snd (history_page self B 1) + 1) /\
    (forall C limit, C <> A -> C <> B ->
                     history_page self' C limit = history_page self C limit).
Proof.
  intros Hrun Hok.
  destruct (transfer_funds_success_log _ _ _ _ _ _ _ _ Hrun Hok)
    as (Hlog & Hdata & _).
  exists (transfer_record (VStr A) (VStr B) (VFloat x) w).
  split; [exact Hdata | ].
  assert (forall C, touches C (transfer_record (VStr A) (VStr B) (VFloat x) w)
                    = (String.eqb A C || String.eqb B C)%bool) as Htouch
      by reflexivity.
  unfold history_page. rewrite Hlog.
  split; [ | split].
  - rewrite !filter_app. cbn [filter snd].
    rewrite Htouch, String.eqb_refl. cbn [orb].
    rewrite slice_last_one, length_app. cbn [List.length]. f_equal. lia.
  - rewrite !filter_app. cbn [filter snd].
    rewrite Htouch, String.eqb_refl, orb_true_r.
    rewrite slice_last_one, length_app. cbn [List.length]. f_equal. lia.
  - intros C limit NA NB. rewrite !filter_app. cbn [filter snd].
    rewrite Htouch.
    replace (String.eqb A C) with false
      by (symmetry; apply String.eqb_neq; congruence).
    replace (String.eqb B C) with false
      by (symmetry; apply String.eqb_neq; congruence).
    cbn [orb]. rewrite app_nil_r. reflexivity.
Qed.

Lemma history_after_transfer_witness :
  exists resp self' w' t,
    transfer_funds MockBankingAPI_init (VStr "ACC001") (VStr "ACC002")
                   (VFloat 100) quiet_world = (Ok (resp, self'), w') /\
    data resp = VDict (txn_dict t) /\
    history_page self' "ACC001" 1 = ([t], 1) /\
    history_page self' "ACC002" 1 = ([t], 1).
Proof.
  edestruct (history_after_transfer MockBankingAPI_init "ACC001" "ACC002" 100
               quiet_world) as (t & Hdata & HA & HB & _).
  - vm_compute. reflexivity.
  - reflexivity.
  - do 3 eexists. exists t. split; [vm_compute; reflexivity | ].
    split; [exact Hdata | ]. split; [exact HA | exact HB].
Defined.

(** X10. The identifier of a logged transfer is "TXN" followed by a number
    between 100000 and 999999; nothing keeps two transfers from drawing the
    same number, and when they do the two transactions carry the same
    identifier. *)
Theorem transaction_id_range self A B x w resp self' w' :
  transfer_funds self (VStr A) (VStr B) (VFloat x) w = (Ok (resp, self'), w') ->
  success resp = true ->
  exists t n,
    transactions self' = transactions self ++ [t] /\
    transaction_id t = ("TXN" ++ int_str n)%string /\
    100000 <= n <= 999999 /\
    (forall C D y resp2 self2 w2,
        transfer_funds self' (VStr C) (VStr D) (VFloat y) w'
        = (Ok (resp2, self2), w2) ->
        success resp2 = true ->
        dice w (S (dice_rolls w)) mod 900000 = dice w (dice_rolls w) mod 900000 ->
        exists t2, transactions self2 = transactions self ++ [t; t2] /\
                   transaction_id t2 = transaction_id t).
Proof.
  intros Hrun Hok.
  destruct (transfer_funds_success_log _ _ _ _ _ _ _ _ Hrun Hok)
    as (Hlog & _ & Hw).
  exists (transfer_record (VStr A) (VStr B) (VFloat x) w),
         (100000 + dice w (dice_rolls w) mod (999999 - 100000 + 1)).
  split; [exact Hlog | ]. split; [reflexivity | ].
  split.
  - pose proof (Z.mod_pos_bound (dice w (dice_rolls w)) (999999 - 100000 + 1)).
    lia.
  - intros C D y resp2 self2 w2 Hrun2 Hok2 Hdice.
    destruct (transfer_funds_success_log _ _ _ _ _ _ _ _ Hrun2 Hok2)
      as (Hlog2 & _ & _).
    exists (transfer_record (VStr C) (VStr D) (VFloat y) w').
    split.
    + rewrite Hlog2, Hlog, <- app_assoc. reflexivity.
    + subst w'. unfold transfer_record. cbn [transaction_id].
      change (dice (rolled (tick_n 3 w))) with (dice w).
      change (dice_rolls (rolled (tick_n 3 w))) with (S (dice_rolls w)).
      change (999999 - 100000 + 1) with 900000. rewrite Hdice. reflexivity.
Qed.

Lemma transaction_id_range_witness :
  exists resp self' w' t n,
    transfer_funds MockBankingAPI_init (VStr "ACC001") (VStr "ACC002")
                   (VFloat 100) quiet_world = (Ok (resp, self'), w') /\
    transactions self' = transactions MockBankingAPI_init ++ [t] /\
    transaction_id t = ("TXN" ++ int_str n)%string /\
    100000 <= n <= 999999.
Proof.
  edestruct (transaction_id_range MockBankingAPI_init "ACC001" "ACC002" 100
               quiet_world) as (t & n & Hlog & Hid & Hrange & _).
  - vm_compute. reflexivity.
  - reflexivity.
  - do 3 eexists. exists t, n. split; [vm_compute; reflexivity | ].
    split; [exact Hlog | ]. split; [exact Hid | exact Hrange].
Defined.

Lemma skipn_clamped {A} (l : list A) (k : nat) :
  skipn (Nat.min k (List.length l)) l = skipn k l.
Proof.
  destruct (Nat.le_gt_cases k (List.length l)) as [H | H].
  - rewrite Nat.min_l by exact H. reflexivity.
  - rewrite Nat.min_r by lia. rewrite skipn_all.
    symmetry. apply skipn_all2. lia.
Qed.

(** X11. A negative limit does not mean "none": the slice [[-limit:]] then
    starts at position [-limit], so the history holds every transaction of
    the account but its [-limit] oldest ones (none when there are no more
    than that), while the count is still that of all of them. *)
Theorem history_negative_limit self id limit w :
  limit < 0 ->
  exists resp w',
    get_transaction_history self id limit w = (Ok resp, w') /\
    status_code resp = 200 /\ success resp = true /\
    data resp
    = VDict [("account_id", VStr id);
             ("transactions",
              VList (map (fun t => VDict (txn_dict t))
                         (skipn (Z.to_nat (- limit))
                                (filter (touches id) (transactions self)))));
             ("total_count",
              VInt (Z.of_nat (List.length (filter (touches id)
                                                  (transactions self)))))].
Proof.
  intros Hneg. unfold get_transaction_history, bind, time_time, ret.
  do 2 eexists. split; [reflexivity | ].
  split; [reflexivity | ]. split; [reflexivity | ].
  cbn [data]. unfold history_page, slice_from. cbn [fst snd].
  replace (- limit <? 0) with false by (symmetry; apply Z.ltb_ge; lia).
  rewrite <- (skipn_clamped _ (Z.to_nat (- limit))).
  replace (Z.to_nat (Z.min (- limit)
                       (Z.of_nat (List.length (filter (touches id)
                                                      (transactions self))))))
    with (Nat.min (Z.to_nat (- limit))
                  (List.length (filter (touches id) (transactions self))))
    by lia.
  reflexivity.
Qed.

Lemma history_negative_limit_witness :
  exists resp w',
    get_transaction_history busy_bank "ACC001" (-2) quiet_world = (Ok resp, w') /\
    status_code resp = 200 /\ success resp = true /\
    data resp
    = VDict [("account_id", VStr "ACC001");
             ("transactions",
              VList [VDict (txn_dict (quiet_record "ACC001" "ACC002" 25))]);
             ("total_count", VInt 3)].
Proof.
  apply (history_negative_limit busy_bank "ACC001" (-2) quiet_world).
  reflexivity.
Defined.

(** X12. Whatever the limit, the page of a history is a tail of the account's
    transactions in the order they were logged: every transaction of the page
    has the account as source or destination, the transactions left out are
    older than those kept, and the count is never below the page's length. *)
Theorem history_page_is_tail self id limit :
  exists older,
    filter (touches id) (transactions self)
    = older ++ fst (history_page self id limit) /\
    Forall (fun t => touches id t = true) (fst (history_page self id limit)) /\
    Z.of_nat (List.length (fst (history_page self id limit)))
    <= snd (history_page self id limit) /\
    snd (history_page self id limit)
    = Z.of_nat (List.length (filter (touches id) (transactions self))).
Proof.
  unfold history_page, slice_from. cbn [fst snd].
  set (l := filter (touches id) (transactions self)).
  set (k := Z.to_nat _).
  exists (firstn k l). split; [ | split; [ | split]].
  - symmetry. apply firstn_skipn.
  - apply Forall_forall. intros t Ht.
    assert (In t l) as Hin.
    { rewrite <- (firstn_skipn k l). apply in_or_app. right. exact Ht. }
    apply filter_In in Hin. apply Hin.
  - rewrite length_skipn. lia.
  - reflexivity.
Qed.

(** ** The stock and the exchange clients *)

Lemma get_stock_price_cases self symbol w :
  get_stock_price self symbol w
  = match network w (requests_sent w) (av_base_url self)
                  (quote_params self symbol) with
    | Ok received =>
        match http_json received with
        | Ok body =>
            (Ok (mkAPIResponse (http_status received) body
                               (http_headers received)
                               (PrimFloat.sub (clock w (S (clock_reads w)))
                                              (clock w (clock_reads w)))
                               (http_status received =? 200)),
             tick (sent (tick w)))
        | Raise e =>
            (Ok (mkAPIResponse 500 (VDict [("error", VStr (exc_str e))]) []
                               (PrimFloat.sub (clock w (S (S (clock_reads w))))
                                              (clock w (clock_reads w)))
                               false),
             tick (tick (sent (tick w))))
        end
    | Raise e => (Ok (quote_failure e w), tick (sent (tick w)))
    end.
Proof.
  unfold get_stock_price, bind, try_except, time_time, requests_get, lift, ret,
    quote_params, quote_failure.
  cbn [network requests_sent tick sent clock clock_reads].
  destruct (network w (requests_sent w) (av_base_url self) _)
    as [received | e]; [ | reflexivity].
  destruct (http_json received) as [body | e]; reflexivity.
Qed.

(** X13. [get_stock_price] never raises and sends exactly one request. When
    the request and the reading of its body both succeed, the response carries
    the status, body and headers received, and [success] says whether the
    status is 200; when either raises, the response has status 500,
    [success = False] and the exception's text under "error". *)
Theorem get_stock_price_never_raises self symbol w :
  exists resp w',
    get_stock_price self symbol w = (Ok resp, w') /\
    requests_sent w' = S (requests_sent w) /\
    match network w (requests_sent w) (av_base_url self)
                  (quote_params self symbol) with
    | Ok received =>
        match http_json received with
        | Ok body =>
            status_code resp = http_status received /\
            data resp = body /\
            headers resp = http_headers received /\
            success resp = (http_status received =? 200)
        | Raise e =>
            status_code resp = 500 /\ success resp = false /\
            data resp = VDict [("error", VStr (exc_str e))] /\
            headers resp = []
        end
    | Raise e =>
        status_code resp = 500 /\ success resp = false /\
        data resp = VDict [("error", VStr (exc_str e))] /\
        headers resp = []
    end.
Proof.
  rewrite get_stock_price_cases.
  destruct (network w (requests_sent w) (av_base_url self) _)
    as [received | e].
  - destruct (http_json received) as [body | e].
    + do 2 eexists. split; [reflexivity | ]. split; [reflexivity | ].
      repeat split; reflexivity.
    + do 2 eexists. split; [reflexivity | ]. split; [reflexivity | ].
      repeat split; reflexivity.
  - do 2 eexists. split; [reflexivity | ]. split; [reflexivity | ].
    repeat split; reflexivity.
Qed.

Lemma rate_of_table_nonzero v r :
  rate_of RATE_TABLE v = Some r -> PrimFloat.eqb r PrimFloat.zero = false.
Proof.
  destruct v as [ | | | | c | | ]; try discriminate.
  apply (table_rate_nonzero c r).
Qed.

Lemma get_exchange_rate_cases from_currency to_currency w :
  get_exchange_rate CurrencyExchangeClient_init from_currency to_currency w
  = match hashable from_currency with
    | Raise e => (Raise e, tick w)
    | Ok _ =>
        match rate_of RATE_TABLE from_currency with
        | None =>
            (Ok (error_response 400 "Unsupported currency" (elapsed w 1)),
             tick_n 2 w)
        | Some from_rate =>
            match hashable to_currency with
            | Raise e => (Raise e, tick w)
            | Ok _ =>
                match rate_of RATE_TABLE to_currency with
                | None =>
                    (Ok (error_response 400 "Unsupported currency"
                                        (elapsed w 1)),
                     tick_n 2 w)
                | Some to_rate =>
                    (Ok (mkAPIResponse 200
                           (VDict [("from", from_currency);
                                   ("to", to_currency);
                                   ("rate",
                                    VFloat (py_round (PrimFloat.div to_rate
                                                                    from_rate) 4));
                                   ("timestamp",
                                    VFloat (clock w (S (clock_reads w))))])
                           json_headers (elapsed w 2) true),
                     tick_n 3 w)
                end
            end
        end
    end.
Proof.
  unfold get_exchange_rate, bind, lift, time_time, ret, elapsed, tick_n.
  fold RATE_TABLE.
  destruct (hashable from_currency); [ | reflexivity].
  destruct (rate_of RATE_TABLE from_currency) as [rf | ] eqn:Hf.
  2:{ cbn. rewrite Nat.add_1_r. reflexivity. }
  destruct (hashable to_currency); [ | reflexivity].
  destruct (rate_of RATE_TABLE to_currency) as [rt | ] eqn:Ht.
  2:{ cbn. rewrite Nat.add_1_r. reflexivity. }
  unfold float_div. rewrite (rate_of_table_nonzero _ _ Hf).
  cbn. rewrite Nat.add_comm. reflexivity.
Qed.

Lemma hashable_container v :
  hashable v = if is_container v
               then Raise (TypeError ("unhashable type: '" ++ type_name v ++ "'"))
               else Ok tt.
Proof. destruct v; reflexivity. Qed.

(** X14. For arguments of any type, the fixed-table [get_exchange_rate] looks
    the source currency up first. It raises a TypeError when the source is a
    list or a dict, or when the source is a table currency and the target is a
    list or a dict; for all other arguments it returns a response, a success
    with status 200 when both are table currencies and a failure with status
    400 otherwise (so None, a number or an unknown name is "unsupported", and
    an unknown source hides an unhashable target). *)
Theorem get_exchange_rate_any_argument from_currency to_currency w :
  if (is_container from_currency
      || (in_table from_currency && is_container to_currency))%bool
  then exists msg w',
      get_exchange_rate CurrencyExchangeClient_init from_currency to_currency w
      = (Raise (TypeError msg), w')
  else exists resp w',
      get_exchange_rate CurrencyExchangeClient_init from_currency to_currency w
      = (Ok resp, w') /\
      success resp = (in_table from_currency && in_table to_currency)%bool /\
      status_code resp
      = (if (in_table from_currency && in_table to_currency)%bool
         then 200 else 400).
Proof.
  rewrite get_exchange_rate_cases, !hashable_container. unfold in_table.
  destruct (is_container from_currency); cbn [orb].
  - do 2 eexists. reflexivity.
  - destruct (rate_of RATE_TABLE from_currency) as [rf | ]; cbn [andb].
    + destruct (is_container to_currency).
      * do 2 eexists. reflexivity.
      * destruct (rate_of RATE_TABLE to_currency) as [rt | ];
          do 2 eexists; (split; [reflexivity | split; reflexivity]).
    + do 2 eexists. split; [reflexivity | split; reflexivity].
Qed.

(** X15. Converting a currency of the fixed table into itself gives the rate
    1.0 exactly. *)
Theorem get_exchange_rate_identity c r w :
  table_rate c = Some r ->
  exists resp w',
    get_exchange_rate CurrencyExchangeClient_init (VStr c) (VStr c) w
    = (Ok resp, w') /\
    success resp = true /\
    rate_field resp = Some (VFloat 1.0).
Proof.
  intros Hc. rewrite get_exchange_rate_strings, Hc.
  do 2 eexists. split; [reflexivity | ]. split; [reflexivity | ].
  unfold rate_field. cbn [data dict_lookup String.eqb Ascii.eqb Bool.eqb].
  do 2 f_equal.
  revert Hc. unfold table_rate, RATE_TABLE.
  cbn [mock_rates CurrencyExchangeClient_init rate_of eq_str].
  repeat (match goal with
          | |- context [String.eqb c ?k] => destruct (String.eqb c k)
          end; [intros [= <-]; vm_compute; reflexivity | ]).
  discriminate.
Qed.

Lemma get_exchange_rate_identity_witness :
  exists resp w',
    get_exchange_rate CurrencyExchangeClient_init (VStr "JPY") (VStr "JPY")
                      quiet_world = (Ok resp, w') /\
    success resp = true /\
    rate_field resp = Some (VFloat 1.0).
Proof.
  apply (get_exchange_rate_identity "JPY" 110.0 quiet_world). reflexivity.
Defined.

(** ** More on the executor *)

Lemma verdict_status label response :
  dict_item (verdict label response) "status"
  = Ok (VStr (if success response then "passed" else "failed")).
Proof. reflexivity. Qed.

Lemma verdict_dispatcher_status label response :
  exists v, dict_item (verdict label response) "status" = Ok v /\
            dispatcher_status v = true.
Proof.
  rewrite verdict_status. eexists. split; [reflexivity | ].
  destruct (success response); reflexivity.
Qed.

Lemma not_implemented_status :
  exists v, dict_item not_implemented "status" = Ok v /\
            dispatcher_status v = true.
Proof. eexists. split; reflexivity. Qed.

Lemma stock_dispatch_status client test_case w r w' :
  _test_stock_api client test_case w = (Ok r, w') ->
  exists v, dict_item r "status" = Ok v /\ dispatcher_status v = true.
Proof.
  unfold _test_stock_api, bind, ret.
  destruct (str_in "get_stock_price" (str_lower (name test_case))).
  - destruct (get_stock_price client _ w) as [[resp | e] w1]; [ | discriminate].
    intros [= <- _]. apply verdict_dispatcher_status.
  - intros [= <- _]. apply not_implemented_status.
Qed.

Lemma banking_dispatch_status client test_case w r w' :
  _test_banking_api client test_case w = (Ok r, w') ->
  exists v, dict_item r "status" = Ok v /\ dispatcher_status v = true.
Proof.
  unfold _test_banking_api, bind, ret.
  destruct (str_in "balance" (str_lower (name test_case))).
  - destruct (get_account_balance client _ w) as [[resp | e] w1];
      [ | discriminate].
    intros [= <- _]. apply verdict_dispatcher_status.
  - destruct (str_in "transfer" (str_lower (name test_case))).
    + destruct (transfer_funds client _ _ _ w) as [[served | e] w1];
        [ | discriminate].
      intros [= <- _]. apply verdict_dispatcher_status.
    + intros [= <- _]. apply not_implemented_status.
Qed.

Lemma currency_dispatch_status client test_case w r w' :
  _test_currency_api client test_case w = (Ok r, w') ->
  exists v, dict_item r "status" = Ok v /\ dispatcher_status v = true.
Proof.
  unfold _test_currency_api, bind, ret.
  destruct (str_in "exchange_rate" (str_lower (name test_case))).
  - destruct (get_exchange_rate client _ _ w) as [[resp | e] w1];
      [ | discriminate].
    intros [= <- _]. apply verdict_dispatcher_status.
  - intros [= <- _]. apply not_implemented_status.
Qed.

Lemma dispatch_status repr_other test_case api_spec w r w' :
  dispatch repr_other test_case api_spec w = (Ok r, w') ->
  exists v, dict_item r "status" = Ok v /\ dispatcher_status v = true.
Proof.
  unfold dispatch.
  destruct (eq_str _ "stock_api"); [apply stock_dispatch_status | ].
  destruct (eq_str _ "banking_api"); [apply banking_dispatch_status | ].
  destruct (eq_str _ "currency_api"); [apply currency_dispatch_status | ].
  unfold ret. intros [= <- _]. eexists. split; reflexivity.
Qed.

(** The executor, with its dispatching expression named. *)
Lemma execute_test_case_cases repr_other test_case api_spec w :
  _execute_test_case repr_other test_case api_spec w
  = match dispatch repr_other test_case api_spec w with
    | (Ok r, w1) =>
        match dict_item r "status" with
        | Ok status =>
            (Ok [("test_name", VStr (name test_case));
                 ("test_type", VStr (test_type test_case));
                 ("priority", VStr (priority test_case));
                 ("api_endpoint", endpoint_value test_case);
                 ("status", status);
                 ("message", dict_get r "message" (VStr ""));
                 ("response_time", dict_get r "response_time" (VInt 0));
                 ("timestamp", VStr (isoformat w1 (clock w1 (clock_reads w1))))],
             tick w1)
        | Raise e => execute_handler test_case e w1
        end
    | (Raise e, w1) => execute_handler test_case e w1
    end.
Proof.
  unfold _execute_test_case, try_except, execute_body.
  fold (dispatch repr_other test_case api_spec).
  unfold bind at 1.
  destruct (dispatch repr_other test_case api_spec w) as [[r | e] w1];
    [ | reflexivity].
  unfold bind, lift, now_isoformat, ret.
  destruct (dict_item r "status"); reflexivity.
Qed.

(** X16. Every executed test case gives a result record whose status is one
    of "passed", "failed", "skipped" and "error". A record with one of the
    first three has the eight entries test_name, test_type, priority,
    api_endpoint, status, message, response_time, timestamp; a record with
    status "error" has only six: it has no api_endpoint and no response_time
    entry. *)
Theorem execute_result_shape repr_other test_case api_spec w :
  exists result w',
    _execute_test_case repr_other test_case api_spec w = (Ok result, w') /\
    ((map fst result = FULL_KEYS /\
      exists v, dict_lookup result "status" = Some v /\
                dispatcher_status v = true) \/
     (map fst result = ERROR_KEYS /\
      dict_lookup result "status" = Some (VStr "error") /\
      dict_lookup result "api_endpoint" = None /\
      dict_lookup result "response_time" = None)).
Proof.
  rewrite execute_test_case_cases.
  destruct (dispatch repr_other test_case api_spec w) as [[r | e] w1] eqn:Hd.
  - destruct (dispatch_status _ _ _ _ _ _ Hd) as (v & Hv & Hstatus).
    rewrite Hv. do 2 eexists. split; [reflexivity | ]. left.
    split; [reflexivity | ]. exists v. split; [reflexivity | exact Hstatus].
  - unfold execute_handler, bind, now_isoformat, ret.
    do 2 eexists. split; [reflexivity | ]. right. repeat split; reflexivity.
Qed.

(** X17. A specification whose type is none of "stock_api", "banking_api" and
    "currency_api" (an absent type, a type that is not a string) is skipped,
    not failed: the result has status "skipped", the message names the type,
    and no client is called (no request is sent, no number drawn). *)
Theorem execute_unknown_type_skipped repr_other test_case api_spec w :
  eq_str (dict_get api_spec "type" (VStr "unknown")) "stock_api" = false ->
  eq_str (dict_get api_spec "type" (VStr "unknown")) "banking_api" = false ->
  eq_str (dict_get api_spec "type" (VStr "unknown")) "currency_api" = false ->
  exists result w',
    _execute_test_case repr_other test_case api_spec w = (Ok result, w') /\
    dict_lookup result "status" = Some (VStr "skipped") /\
    dict_lookup result "message"
    = Some (VStr ("Unknown API type: "
                  ++ py_str repr_other (dict_get api_spec "type" (VStr "unknown")))) /\
    dict_lookup result "response_time" = Some (VInt 0) /\
    requests_sent w' = requests_sent w /\ dice_rolls w' = dice_rolls w.
Proof.
  intros Hs Hb Hc. rewrite execute_test_case_cases. unfold dispatch.
  rewrite Hs, Hb, Hc. unfold ret.
  do 2 eexists. split; [reflexivity | ]. repeat split; reflexivity.
Qed.

Lemma execute_unknown_type_skipped_witness :
  exists result w',
    _execute_test_case (fun _ => "") transfer_case [("name", VStr "Ledger")]
                       quiet_world = (Ok result, w') /\
    dict_lookup result "status" = Some (VStr "skipped") /\
    dict_lookup result "message" = Some (VStr "Unknown API type: unknown").
Proof.
  destruct (execute_unknown_type_skipped (fun _ => "") transfer_case
              [("name", VStr "Ledger")] quiet_world)
    as (result & w' & Hrun & Hstatus & Hmessage & _); try reflexivity.
  exists result, w'. repeat split; assumption.
Defined.

(** X18. Under a recognized type, a test case whose name is ASCII and, once
    lowercased, contains none of the words its dispatcher looks for
    ("get_stock_price"; "balance" or "transfer"; "exchange_rate") is skipped
    with the message "Test not implemented", and no client is called. *)
Theorem execute_no_action_skipped repr_other test_case api_spec api_type w :
  dict_get api_spec "type" (VStr "unknown") = VStr api_type ->
  api_type = "stock_api" \/ api_type = "banking_api"
  \/ api_type = "currency_api" ->
  str_isascii (name test_case) = true ->
  names_action api_type test_case = false ->
  exists result w',
    _execute_test_case repr_other test_case api_spec w = (Ok result, w') /\
    dict_lookup result "status" = Some (VStr "skipped") /\
    dict_lookup result "message" = Some (VStr "Test not implemented") /\
    requests_sent w' = requests_sent w /\ dice_rolls w' = dice_rolls w.
Proof.
  intros Htype Hknown _ Hname. rewrite execute_test_case_cases.
  unfold dispatch. rewrite Htype. unfold names_action in Hname.
  destruct Hknown as [-> | [-> | ->]]; cbn [eq_str String.eqb Ascii.eqb Bool.eqb] in *.
  - unfold _test_stock_api. rewrite Hname. unfold ret.
    do 2 eexists. split; [reflexivity | ]. repeat split; reflexivity.
  - apply orb_false_iff in Hname as [Hb Ht].
    unfold _test_banking_api. rewrite Hb, Ht. unfold ret.
    do 2 eexists. split; [reflexivity | ]. repeat split; reflexivity.
  - unfold _test_currency_api. rewrite Hname. unfold ret.
    do 2 eexists. split; [reflexivity | ]. repeat split; reflexivity.
Qed.

Lemma execute_no_action_skipped_witness :
  exists result w',
    _execute_test_case (fun _ => "")
                       (plain_case "Banking API Happy Path Test" None)
                       BANKING_SPEC quiet_world = (Ok result, w') /\
    dict_lookup result "status" = Some (VStr "skipped") /\
    dict_lookup result "message" = Some (VStr "Test not implemented").
Proof.
  destruct (execute_no_action_skipped (fun _ => "")
              (plain_case "Banking API Happy Path Test" None)
              BANKING_SPEC "banking_api" quiet_world)
    as (result & w' & Hrun & Hstatus & Hmessage & _).
  - reflexivity.
  - right. left. reflexivity.
  - reflexivity.
  - reflexivity.
  - exists result, w'. repeat split; assumption.
Defined.








(** ** Runs *)

Lemma keeps_ret {A} (a : A) : keeps_provider (ret a).
Proof. intros w. reflexivity. Qed.

Lemma keeps_lift {A} (o : Outcome A) : keeps_provider (lift o).
Proof. intros w. reflexivity. Qed.

Lemma keeps_time : keeps_provider time_time.
Proof. intros w. reflexivity. Qed.

Lemma keeps_now : keeps_provider now_isoformat.
Proof. intros w. reflexivity. Qed.

Lemma keeps_randint lo hi : keeps_provider (randint lo hi).
Proof. intros w. reflexivity. Qed.

Lemma keeps_requests url params : keeps_provider (requests_get url params).
Proof. intros w. reflexivity. Qed.

Lemma keeps_completion ask : keeps_provider (completion_text ask).
Proof. intros w. reflexivity. Qed.

Lemma keeps_bind {A B} (c : M A) (k : A -> M B) :
  keeps_provider c -> (forall a, keeps_provider (k a)) ->
  keeps_provider (bind c k).
Proof.
  intros Hc Hk w. unfold bind. specialize (Hc w).
  destruct (c w) as [[a | e] w1]; cbn [snd] in *.
  - rewrite (Hk a w1). exact Hc.
  - exact Hc.
Qed.

Lemma keeps_try {A} (body : M A) (handler : PyExc -> M A) :
  keeps_provider body -> (forall e, keeps_provider (handler e)) ->
  keeps_provider (try_except body handler).
Proof.
  intros Hb Hh w. unfold try_except. specialize (Hb w).
  destruct (body w) as [[a | e] w1]; cbn [snd] in *.
  - exact Hb.
  - rewrite (Hh e w1). exact Hb.
Qed.

Ltac keeps :=
  repeat first
    [ apply keeps_ret | apply keeps_lift | apply keeps_time | apply keeps_now
    | apply keeps_randint | apply keeps_requests | apply keeps_completion
    | apply keeps_bind; [ | intros ? ]
    | apply keeps_try; [ | intros ? ]
    | match goal with
      | |- keeps_provider (if ?b then _ else _) => destruct b
      | |- keeps_provider (match ?x with _ => _ end) => destruct x
      end ].

Lemma keeps_execute repr_other test_case api_spec :
  keeps_provider (_execute_test_case repr_other test_case api_spec).
Proof.
  unfold _execute_test_case, execute_body, execute_handler, _test_stock_api,
    _test_banking_api, _test_currency_api, get_stock_price,
    get_account_balance, transfer_funds, get_exchange_rate.
  keeps.
Qed.

Lemma execute_test_case_returns repr_other test_case api_spec w :
  exists result w',
    _execute_test_case repr_other test_case api_spec w = (Ok result, w').
Proof.
  rewrite execute_test_case_cases.
  destruct (dispatch repr_other test_case api_spec w) as [[r | e] w1].
  - destruct (dict_item r "status"); [eauto | ].
    unfold execute_handler, bind, now_isoformat, ret. eauto.
  - unfold execute_handler, bind, now_isoformat, ret. eauto.
Qed.

Lemma execute_all_returns repr_other api_spec test_cases :
  forall all_results w,
  exists results w',
    execute_all repr_other test_cases api_spec all_results w = (Ok results, w') /\
    List.length results = (List.length all_results + List.length test_cases)%nat /\
    openai w' = openai w.
Proof.
  induction test_cases as [ | test_case rest IH]; intros all_results w.
  - exists all_results, w. cbn. split; [reflexivity | ]. split; [lia | reflexivity].
  - cbn [execute_all]. unfold bind at 1.
    destruct (execute_test_case_returns repr_other test_case api_spec w)
      as (result & w1 & Hrun).
    pose proof (keeps_execute repr_other test_case api_spec w) as Hkeep.
    rewrite Hrun in *. cbn [snd] in Hkeep.
    destruct (IH (all_results ++ [result]) w1) as (results & w' & Hrest & Hlen & Hp).
    exists results, w'. split; [exact Hrest | ].
    rewrite Hlen, length_app. cbn [List.length]. split; [lia | congruence].
Qed.

Lemma domain_tests_return repr_other knowledge_base api_spec query_context :
  typed_spec api_spec ->
  exists scenarios,
    generate_domain_aware_tests repr_other knowledge_base api_spec query_context
    = Ok scenarios.
Proof.
  intros [s Hs]. unfold generate_domain_aware_tests. rewrite Hs. cbn [py_lower].
  eauto.
Qed.

Lemma run_specs_without_provider repr_other read_test_cases knowledge_base api_specs :
  Forall typed_spec api_specs ->
  forall all_results w,
    openai w = None ->
    exists results w',
      run_specs repr_other read_test_cases knowledge_base api_specs all_results w
      = (Ok results, w') /\
      List.length results
      = (List.length all_results + 3 * List.length api_specs)%nat /\
      openai w' = None.
Proof.
  induction 1 as [ | api_spec rest Htyped _ IH]; intros all_results w Hnone.
  - exists all_results, w. cbn. split; [reflexivity | ]. split; [lia | exact Hnone].
  - cbn [run_specs]. unfold bind at 1, generate_test_cases. rewrite Hnone.
    unfold ret at 1. unfold bind at 1, lift.
    destruct (domain_tests_return repr_other knowledge_base api_spec
                "Banking and financial services" Htyped) as (scenarios & ->).
    unfold bind at 1.
    destruct (execute_all_returns repr_other api_spec
                (_generate_mock_test_cases repr_other api_spec) all_results w)
      as (results1 & w1 & Hrun & Hlen & Hp).
    rewrite Hrun.
    destruct (IH results1 w1) as (results & w' & Hrest & Hlen' & Hp');
      [congruence | ].
    exists results, w'. split; [exact Hrest | ].
    split; [ | exact Hp'].
    rewrite Hlen', Hlen. cbn [List.length _generate_mock_test_cases]. lia.
Qed.

(** X22. Without a text provider, a run over specifications whose types are
    strings (or absent) never raises and executes exactly the three fallback
    test cases of each specification: the report's [total_tests] is three
    times the number of specifications, and its [ai_analysis] is the fallback
    analysis of the results. *)
Theorem run_without_provider repr_other read_test_cases api_specs w :
  openai w = None ->
  Forall typed_spec api_specs ->
  exists results report w',
    run_ai_generated_tests repr_other read_test_cases api_specs w
    = (Ok report, w') /\
    dict_lookup report "test_results" = Some (VList (map VDict results)) /\
    List.length results = (3 * List.length api_specs)%nat /\
    dict_lookup report "total_tests"
    = Some (VInt (3 * Z.of_nat (List.length api_specs))) /\
    dict_lookup report "ai_analysis"
    = Some (VDict (_generate_mock_analysis results)).
Proof.
  intros Hnone Htyped.
  destruct (run_specs_without_provider repr_other read_test_cases
              FINANCIAL_DOMAIN_DOCS api_specs Htyped [] w Hnone)
    as (results & w1 & Hrun & Hlen & Hp).
  pose proof (run_specs_has_status _ _ _ _ _ _ _ _ (Forall_nil _) Hrun) as Hall.
  unfold run_ai_generated_tests. unfold bind at 1. rewrite Hrun.
  unfold bind at 1, analyze_test_results. rewrite Hp. unfold ret at 1.
  unfold report_record, bind, lift, now_isoformat, ret.
  rewrite !(with_status_filter _ _ Hall).
  exists results. do 2 eexists. split; [reflexivity | ].
  split; [reflexivity | ]. split; [exact Hlen | ].
  split; [ | reflexivity].
  cbn [dict_lookup String.eqb Ascii.eqb Bool.eqb]. unfold len.
  cbn [List.length] in Hlen. do 2 f_equal. lia.
Qed.

Lemma run_without_provider_witness :
  exists results report w',
    run_ai_generated_tests (fun _ => "") (fun _ => None) SAMPLE_API_SPECS
                           quiet_world = (Ok report, w') /\
    dict_lookup report "test_results" = Some (VList (map VDict results)) /\
    List.length results = 9%nat /\
    dict_lookup report "total_tests" = Some (VInt 9) /\
    dict_lookup report "ai_analysis"
    = Some (VDict (_generate_mock_analysis results)).
Proof.
  apply (run_without_provider (fun _ => "") (fun _ => None) SAMPLE_API_SPECS
           quiet_world).
  - reflexivity.
  - repeat constructor; eexists; reflexivity.
Defined.

Lemma generate_test_cases_returns repr_other read_test_cases api_spec w :
  exists cases w',
    generate_test_cases repr_other read_test_cases api_spec w = (Ok cases, w').
Proof.
  unfold generate_test_cases. destruct (openai w) as [ask | ].
  - unfold try_except, bind, completion_text, ret.
    destruct (ask (completions w)); eauto.
  - unfold ret. eauto.
Qed.

(** X23. One specification whose type is not a string aborts the whole run:
    the scenario step calls [lower] on the type, outside any [try], so
    [run_ai_generated_tests] raises an AttributeError before any test of that
    specification is executed (the executor alone would have skipped it). *)
Theorem run_raises_on_untyped_spec repr_other read_test_cases api_spec rest w :
  (forall s, dict_get api_spec "type" (VStr "unknown") <> VStr s) ->
  exists w',
    run_ai_generated_tests repr_other read_test_cases (api_spec :: rest) w
    = (Raise (mkExc "AttributeError"
                    ("'" ++ type_name (dict_get api_spec "type" (VStr "unknown"))
                     ++ "' object has no attribute 'lower'")),
       w').
Proof.
  intros Htype. unfold run_ai_generated_tests. unfold bind at 1.
  cbn [run_specs]. unfold bind at 1.
  destruct (generate_test_cases_returns repr_other read_test_cases api_spec w)
    as (cases & w1 & ->).
  unfold bind at 1, lift, generate_domain_aware_tests.
  destruct (dict_get api_spec "type" (VStr "unknown")) as [ | b | z | f | s | l | d]
    eqn:Hv; cbn [py_lower type_name]; try (eexists; reflexivity).
  exfalso. apply (Htype s). reflexivity.
Qed.

Lemma run_raises_on_untyped_spec_witness :
  exists w',
    run_ai_generated_tests (fun _ => "") (fun _ => None)
                           ([("name", VStr "Ledger"); ("type", VInt 7)]
                              :: SAMPLE_API_SPECS) quiet_world
    = (Raise (mkExc "AttributeError" "'int' object has no attribute 'lower'"),
       w').
Proof.
  apply (run_raises_on_untyped_spec (fun _ => "") (fun _ => None)
           [("name", VStr "Ledger"); ("type", VInt 7)] SAMPLE_API_SPECS
           quiet_world).
  intros s. discriminate.
Defined.

Lemma three_way_count (rs : list PyDict) :
  Z.of_nat (List.length rs)
  = Z.of_nat (List.length (filter (has_status "passed") rs))
    + Z.of_nat (List.length (filter (has_status "failed") rs))
    + Z.of_nat (List.length (filter neither rs)).
Proof.
  induction rs as [ | r rest IH]; [reflexivity | ].
  assert (Hex : has_status "passed" r = true -> has_status "failed" r = false).
  { unfold has_status.
    destruct (dict_get r "status" VNone); cbn [eq_str]; try discriminate.
    intros H. apply String.eqb_eq in H. subst. reflexivity. }
  change (filter neither (r :: rest))
    with (if neither r then r :: filter neither rest else filter neither rest).
  change (filter (has_status "passed") (r :: rest))
    with (if has_status "passed" r then r :: filter (has_status "passed") rest
          else filter (has_status "passed") rest).
  change (filter (has_status "failed") (r :: rest))
    with (if has_status "failed" r then r :: filter (has_status "failed") rest
          else filter (has_status "failed") rest).
  unfold neither at 1.
  destruct (has_status "passed" r); destruct (has_status "failed" r);
    cbn [negb andb List.length];
    try (specialize (Hex eq_refl); discriminate); lia.
Qed.

(** X24. Two counts of failures in one report. Without a text provider the
    report's own [failed_tests] counts the results with status "failed", while
    the [failed_tests] of its [ai_analysis] is total minus passed: the second
    exceeds the first by the number of results that are neither passed nor
    failed (the skipped and the errors). *)
Theorem report_and_analysis_failures repr_other read_test_cases api_specs w :
  openai w = None ->
  Forall typed_spec api_specs ->
  exists results report w' failed analysed,
    run_ai_generated_tests repr_other read_test_cases api_specs w
    = (Ok report, w') /\
    dict_lookup report "test_results" = Some (VList (map VDict results)) /\
    dict_lookup report "failed_tests" = Some (VInt failed) /\
    dict_lookup report "ai_analysis"
    = Some (VDict (_generate_mock_analysis results)) /\
    dict_lookup (_generate_mock_analysis results) "failed_tests"
    = Some (VInt analysed) /\
    analysed = failed + Z.of_nat (List.length (filter neither results)).
Proof.
  intros Hnone Htyped.
  destruct (run_specs_without_provider repr_other read_test_cases
              FINANCIAL_DOMAIN_DOCS api_specs Htyped [] w Hnone)
    as (results & w1 & Hrun & _ & Hp).
  pose proof (run_specs_has_status _ _ _ _ _ _ _ _ (Forall_nil _) Hrun) as Hall.
  unfold run_ai_generated_tests. unfold bind at 1. rewrite Hrun.
  unfold bind at 1, analyze_test_results. rewrite Hp. unfold ret at 1.
  unfold report_record, bind, lift, now_isoformat, ret.
  rewrite !(with_status_filter _ _ Hall).
  exists results. do 4 eexists. split; [reflexivity | ].
  split; [reflexivity | ]. split; [reflexivity | ].
  split; [reflexivity | ]. split; [reflexivity | ].
  unfold count_if.
  change (filter is_passed results) with (filter (has_status "passed") results).
  pose proof (three_way_count results). lia.
Qed.

Lemma report_and_analysis_failures_witness :
  exists results report w' failed analysed,
    run_ai_generated_tests (fun _ => "") (fun _ => None) [BANKING_SPEC]
                           quiet_world = (Ok report, w') /\
    dict_lookup report "test_results" = Some (VList (map VDict results)) /\
    dict_lookup report "failed_tests" = Some (VInt failed) /\
    dict_lookup report "ai_analysis"
    = Some (VDict (_generate_mock_analysis results)) /\
    dict_lookup (_generate_mock_analysis results) "failed_tests"
    = Some (VInt analysed) /\
    analysed = failed + Z.of_nat (List.length (filter neither results)).
Proof.
  apply (report_and_analysis_failures (fun _ => "") (fun _ => None)
           [BANKING_SPEC] quiet_world).
  - reflexivity.
  - repeat constructor; eexists; reflexivity.
Defined.

(** X25. Neither engine call ever raises, but they answer a failing provider
    differently. Without a provider both use their fallback. With a provider
    whose call raises, [generate_test_cases] still returns the three fallback
    test cases, whereas [analyze_test_results] returns the one-entry record
    [{"error": "Analysis failed: <message>"}] and not the fallback analysis.
    With a provider that answers, the test cases are those read from the
    answer (the fallback ones when none can be read) and the analysis is the
    one-entry record holding the answer, stripped when it is ASCII. *)
Theorem engine_calls_on_provider_failure repr_other read_test_cases api_spec results w :
  exists cases w1 analysis w2,
    generate_test_cases repr_other read_test_cases api_spec w = (Ok cases, w1) /\
    analyze_test_results results w = (Ok analysis, w2) /\
    (openai w = None ->
     cases = _generate_mock_test_cases repr_other api_spec /\
     analysis = _generate_mock_analysis results) /\
    (forall ask e,
        openai w = Some ask -> ask (completions w) = Raise e ->
        cases = _generate_mock_test_cases repr_other api_spec /\
        analysis = [("error", VStr ("Analysis failed: " ++ exc_str e))]) /\
    (forall ask text,
        openai w = Some ask -> ask (completions w) = Ok text ->
        cases = match read_test_cases text with
                | Some read => read
                | None => _generate_mock_test_cases repr_other api_spec
                end /\
        exists kept,
          analysis = [("analysis", VStr kept)] /\
          (str_isascii text = true -> kept = str_strip text)).
Proof.
  unfold generate_test_cases, analyze_test_results.
  destruct (openai w) as [ask | ].
  - unfold try_except, bind, completion_text, ret, _parse_ai_response.
    destruct (ask (completions w)) as [text | e] eqn:Hask.
    + do 4 eexists. split; [reflexivity | ]. split; [reflexivity | ].
      split; [discriminate | ]. split.
      * intros ask' e [= <-] H. congruence.
      * intros ask' text' [= <-] H. rewrite Hask in H. injection H as <-.
        split; [reflexivity | ]. eexists. split; [reflexivity | ].
        intros _. reflexivity.
    + do 4 eexists. split; [reflexivity | ]. split; [reflexivity | ].
      split; [discriminate | ]. split.
      * intros ask' e' [= <-] H. rewrite Hask in H. injection H as <-.
        split; reflexivity.
      * intros ask' text [= <-] H. congruence.
  - unfold ret. do 4 eexists. split; [reflexivity | ]. split; [reflexivity | ].
    split; [intros _; split; reflexivity | ].
    split; intros; discriminate.
Qed.

Lemma engine_calls_on_provider_failure_witness :
  exists cases w1 analysis w2,
    generate_test_cases (fun _ => "") (fun _ => None) BANKING_SPEC
                        failing_provider_world = (Ok cases, w1) /\
    analyze_test_results one_of_each failing_provider_world = (Ok analysis, w2) /\
    cases = _generate_mock_test_cases (fun _ => "") BANKING_SPEC /\
    analysis = [("error", VStr "Analysis failed: quota exceeded")].
Proof.
  destruct (engine_calls_on_provider_failure (fun _ => "") (fun _ => None)
              BANKING_SPEC one_of_each failing_provider_world)
    as (cases & w1 & analysis & w2 & Hgen & Han & _ & Hfail & _).
  exists cases, w1, analysis, w2. split; [exact Hgen | ]. split; [exact Han | ].
  apply (Hfail (fun _ => Raise (mkExc "RateLimitError" "quota exceeded"))
               (mkExc "RateLimitError" "quota exceeded")); reflexivity.
Defined.

(** ** The written report *)

Lemma run_report_record repr_other read_test_cases api_specs w report w' :
  run_ai_generated_tests repr_other read_test_cases api_specs w = (Ok report, w') ->
  exists all_results analysis stamp,
    report = [("test_results", VList (map VDict all_results));
              ("ai_analysis", VDict analysis);
              ("total_tests", len all_results);
              ("passed_tests", len (filter (has_status "passed") all_results));
              ("failed_tests", len (filter (has_status "failed") all_results));
              ("timestamp", VStr stamp)].
Proof.
  unfold run_ai_generated_tests. unfold bind at 1.
  destruct (run_specs _ _ _ _ _ w) as [[all_results | e] w1] eqn:Hrun;
    [ | discriminate].
  pose proof (run_specs_has_status _ _ _ _ _ _ _ _ (Forall_nil _) Hrun) as Hall.
  unfold bind at 1.
  destruct (analyze_test_results all_results w1) as [[analysis | e] w2];
    [ | discriminate].
  unfold report_record, bind, lift, now_isoformat, ret.
  rewrite !(with_status_filter _ _ Hall).
  intros [= <- _]. eauto.
Qed.

(** X26. A run that executed no test cannot be reported: when the report of
    [run_ai_generated_tests] has [total_tests] 0 (no specification, or a
    provider that answered with empty arrays), [generate_test_report] writes
    the file, prints the heading and the three counts, all 0, and then raises
    ZeroDivisionError on the success rate; the analysis and the closing line
    are not printed. *)
Theorem report_of_empty_run_raises repr_other read_test_cases api_specs w
        report w' output_file desk :
  run_ai_generated_tests repr_other read_test_cases api_specs w = (Ok report, w') ->
  dict_lookup report "total_tests" = Some (VInt 0) ->
  opening desk output_file = None ->
  generate_test_report repr_other report output_file desk
  = (Raise (mkExc "ZeroDivisionError" "division by zero"),
     mkDesk (opening desk) (saved desk ++ [(output_file, report)])
            (printed desk ++ report_head 0 0 0)).
Proof.
  intros Hrun Htotal Hopen.
  destruct (run_report_record _ _ _ _ _ _ Hrun)
    as (all_results & analysis & stamp & ->).
  cbn in Htotal. injection Htotal as Hlen.
  destruct all_results as [ | r rest]; [ | cbn [List.length] in Hlen; lia].
  unfold generate_test_report, and_then, json_dump_to. rewrite Hopen.
  cbn. rewrite <- !app_assoc. reflexivity.
Qed.

Lemma report_of_empty_run_raises_witness :
  exists report w',
    run_ai_generated_tests (fun _ => "") (fun _ => None) [] quiet_world
    = (Ok report, w') /\
    generate_test_report (fun _ => "") report "test_report.json"
                         (mkDesk (fun _ => None) [] [])
    = (Raise (mkExc "ZeroDivisionError" "division by zero"),
       mkDesk (fun _ => None) [("test_report.json", report)]
              (report_head 0 0 0)).
Proof.
  do 2 eexists. split; [vm_compute; reflexivity | ].
  eapply (report_of_empty_run_raises (fun _ => "") (fun _ => None) []
            quiet_world _ _ "test_report.json" (mkDesk (fun _ => None) [] []));
    reflexivity.
Defined.

Lemma int_truediv_checked_counts p t :
  0 <= p <= t -> 0 < t -> int_truediv_checked p t = Ok (int_truediv p t).
Proof.
  intros Hp Ht. unfold int_truediv_checked.
  destruct (t =? 0) eqn:Hzero; [apply Z.eqb_eq in Hzero; lia | ].
  assert (1 < 2 ^ 1024 - 2 ^ 970) as Hbig
      by (apply Z.ltb_lt; vm_compute; reflexivity).
  remember (2 ^ 1024 - 2 ^ 970) as K.
  destruct (K * Z.abs t <=? Z.abs p) eqn:Hover.
  - apply Z.leb_le in Hover. rewrite !Z.abs_eq in Hover by lia. nia.
  - destruct p as [ | p | p]; [ | | lia]; destruct t as [ | t | t]; try lia;
      reflexivity.
Qed.

(** X27. Without a text provider, the report of a run over one or more
    specifications with string types is written and printed in full: the
    file holds the report, and the eight lines are the heading, the three
    counts, the success rate, the analysis heading, the analysis and the
    closing line. The printed success rate is the [success_rate] of the
    fallback analysis in the same report. *)
Theorem report_of_run_without_provider repr_other read_test_cases api_specs w
        output_file desk :
  openai w = None ->
  Forall typed_spec api_specs ->
  api_specs <> [] ->
  opening desk output_file = None ->
  exists results report w' rate,
    run_ai_generated_tests repr_other read_test_cases api_specs w
    = (Ok report, w') /\
    dict_lookup report "test_results" = Some (VList (map VDict results)) /\
    dict_lookup (_generate_mock_analysis results) "success_rate"
    = Some (VStr rate) /\
    generate_test_report repr_other report output_file desk
    = (Ok tt,
       mkDesk (opening desk) (saved desk ++ [(output_file, report)])
              (printed desk
               ++ report_head (Z.of_nat (List.length results))
                              (count_if (has_status "passed") results)
                              (count_if (has_status "failed") results)
               ++ [("Success Rate: " ++ rate)%string;
                   (nl ++ "=== AI Analysis ===")%string;
                   repr_other (VDict (_generate_mock_analysis results));
                   (nl ++ "Detailed report saved to: " ++ output_file)%string])).
Proof.
  intros Hnone Htyped Hsome Hopen.
  destruct (run_specs_without_provider repr_other read_test_cases
              FINANCIAL_DOMAIN_DOCS api_specs Htyped [] w Hnone)
    as (results & w1 & Hrun & Hlen & Hp).
  pose proof (run_specs_has_status _ _ _ _ _ _ _ _ (Forall_nil _) Hrun) as Hall.
  assert (0 < Z.of_nat (List.length results)) as Hpos.
  { destruct api_specs; [congruence | ]. cbn [List.length] in Hlen. lia. }
  assert (0 <= count_if (has_status "passed") results
          <= Z.of_nat (List.length results)) as Hcount.
  { unfold count_if. pose proof (filter_length_le (has_status "passed") results).
    lia. }
  unfold run_ai_generated_tests. unfold bind at 1. rewrite Hrun.
  unfold bind at 1, analyze_test_results. rewrite Hp. unfold ret at 1.
  unfold report_record, bind, lift, now_isoformat, ret.
  rewrite !(with_status_filter _ _ Hall).
  exists results. do 3 eexists. split; [reflexivity | ].
  split; [reflexivity | ].
  split.
  { unfold _generate_mock_analysis.
    cbn [dict_lookup String.eqb Ascii.eqb Bool.eqb]. 
    apply Z.ltb_lt in Hpos. rewrite Hpos. reflexivity. }
  unfold generate_test_report, and_then, json_dump_to, from_outcome, py_print, skip,
    dict_item, dict_get.
  rewrite Hopen.
  cbn [dict_lookup String.eqb Ascii.eqb Bool.eqb opening saved printed py_str].
  unfold py_truediv, len.
  cbn [is_number as_int andb py_str].
  fold (count_if (has_status "passed") results).
  rewrite (int_truediv_checked_counts _ _ Hcount Hpos).
  change (truthy (VDict (_generate_mock_analysis results))) with true.
  cbn [opening saved printed py_str]. unfold report_head, count_if.
  rewrite <- !app_assoc. reflexivity.
Qed.

Lemma report_of_run_without_provider_witness :
  exists results report w' rate,
    run_ai_generated_tests (fun _ => "") (fun _ => None) [BANKING_SPEC]
                           quiet_world = (Ok report, w') /\
    dict_lookup report "test_results" = Some (VList (map VDict results)) /\
    dict_lookup (_generate_mock_analysis results) "success_rate"
    = Some (VStr rate) /\
    generate_test_report (fun _ => "") report "test_report.json"
                         (mkDesk (fun _ => None) [] [])
    = (Ok tt,
       mkDesk (fun _ => None) ([] ++ [("test_report.json", report)])
              ([] ++ report_head (Z.of_nat (List.length results))
                                 (count_if (has_status "passed") results)
                                 (count_if (has_status "failed") results)
               ++ [("Success Rate: " ++ rate)%string;
                   (nl ++ "=== AI Analysis ===")%string;
                   "";
                   (nl ++ "Detailed report saved to: test_report.json")%string])).
Proof.
  apply (report_of_run_without_provider (fun _ => "") (fun _ => None)
           [BANKING_SPEC] quiet_world "test_report.json"
           (mkDesk (fun _ => None) [] [])).
  - reflexivity.
  - repeat constructor. eexists. reflexivity.
  - discriminate.
  - reflexivity.
Defined.

(** X28. The report file is written before anything is checked. For every
    result record, when the path cannot be opened [generate_test_report]
    raises that error and neither writes nor prints; otherwise the record is
    written and the heading printed whatever follows, also when the call then
    raises: a record without [total_tests] raises KeyError right after the
    heading, and a call that returns has printed the closing line last. *)
Theorem report_written_before_checked repr_other results output_file desk :
  match opening desk output_file with
  | Some e =>
      generate_test_report repr_other results output_file desk = (Raise e, desk)
  | None =>
      exists outcome lines,
        generate_test_report repr_other results output_file desk
        = (outcome,
           mkDesk (opening desk) (saved desk ++ [(output_file, results)])
                  (printed desk
                   ++ (nl ++ "=== AI-Enhanced Test Report ===")%string :: lines)) /\
        (dict_lookup results "total_tests" = None ->
         outcome = Raise (KeyError "total_tests") /\ lines = []) /\
        (outcome = Ok tt ->
         last lines ""
         = (nl ++ "Detailed report saved to: " ++ output_file)%string)
  end.
Proof.
  unfold generate_test_report, and_then, json_dump_to, from_outcome, py_print, skip,
    dict_item.
  destruct (opening desk output_file) as [e | ]; [reflexivity | ].
  cbn [opening saved printed].
  destruct (dict_lookup results "total_tests") as [total | ].
  2: { do 2 eexists. split; [reflexivity | ]. split; [ | discriminate].
       intros _. split; reflexivity. }
  destruct (dict_lookup results "passed_tests") as [passed | ].
  2: { do 2 eexists. rewrite <- !app_assoc. cbn [app].
       split; [reflexivity | ]. split; discriminate. }
  destruct (dict_lookup results "failed_tests") as [failed | ].
  2: { do 2 eexists. rewrite <- !app_assoc. cbn [app].
       split; [reflexivity | ]. split; discriminate. }
  destruct (py_truediv passed total) as [ratio | e].
  2: { do 2 eexists. rewrite <- !app_assoc. cbn [app].
       split; [reflexivity | ]. split; discriminate. }
  destruct (truthy (dict_get results "ai_analysis" VNone)).
  - destruct (dict_lookup results "ai_analysis") as [analysis | ].
    + do 2 eexists. cbn [opening saved printed]. rewrite <- !app_assoc.
      cbn [app]. split; [reflexivity | ]. split; [discriminate | ].
      intros _. reflexivity.
    + do 2 eexists. cbn [opening saved printed]. rewrite <- !app_assoc.
      cbn [app]. split; [reflexivity | ]. split; discriminate.
  - do 2 eexists. cbn [opening saved printed]. rewrite <- !app_assoc.
    cbn [app]. split; [reflexivity | ]. split; [discriminate | ].
    intros _. reflexivity.
Qed.

(** ** More on the knowledge engine *)

Lemma space_lower c : is_space c = true -> ascii_lower c = c.
Proof.
  unfold is_space, ascii_lower. cbv zeta.
  destruct (Nat.leb 65 (nat_of_ascii c)) eqn:H65;
    destruct (Nat.leb (nat_of_ascii c) 90) eqn:H90; cbn [andb];
    try reflexivity.
  apply Nat.leb_le in H65, H90.
  rewrite orb_true_iff, !andb_true_iff, !Nat.leb_le. lia.
Qed.

Lemma blank_has_no_word s : blank s = true -> str_split (str_lower s) = [].
Proof.
  unfold blank, str_split.
  induction s as [ | c s IH]; [reflexivity | ].
  cbn [list_ascii_of_string forallb str_lower split_from].
  rewrite andb_true_iff. intros [Hc Hs].
  rewrite (space_lower c Hc), Hc. cbn [flush_word]. exact (IH Hs).
Qed.

Lemma firstn_incl {A} n (l : list A) : incl (firstn n l) l.
Proof.
  intros x Hx. rewrite <- (firstn_skipn n l). apply in_or_app. left. exact Hx.
Qed.

(** X29. Bounds of the knowledge lookup, for every knowledge base and query:
    it returns only documents of the knowledge base and no more than it
    holds; it returns nothing only when the knowledge base is empty; and a
    query without a word (empty or whitespace only) gets the first two
    documents. *)
Theorem find_relevant_knowledge_bounds knowledge_base query :
  incl (_find_relevant_knowledge knowledge_base query) knowledge_base /\
  (List.length (_find_relevant_knowledge knowledge_base query)
   <= List.length knowledge_base)%nat /\
  (_find_relevant_knowledge knowledge_base query = [] <-> knowledge_base = []) /\
  (blank query = true ->
   _find_relevant_knowledge knowledge_base query = firstn 2 knowledge_base).
Proof.
  unfold _find_relevant_knowledge. cbv zeta. rewrite scan_doc_fold. cbn [app].
  split; [ | split; [ | split]].
  - destruct (filter _ knowledge_base) as [ | doc kept] eqn:Hkept.
    + apply firstn_incl.
    + rewrite <- Hkept. intros x Hx. apply filter_In in Hx. apply Hx.
  - destruct (filter _ knowledge_base) as [ | doc kept] eqn:Hkept.
    + rewrite length_firstn. lia.
    + rewrite <- Hkept. apply filter_length_le.
  - destruct (filter _ knowledge_base) as [ | doc kept] eqn:Hkept.
    + destruct knowledge_base as [ | d1 [ | d2 rest]]; cbn [firstn];
        split; intros H; try reflexivity; discriminate H.
    + split; [discriminate | ]. intros ->. discriminate Hkept.
  - intros Hblank.
    assert (filter (relevant_doc (str_lower query)) knowledge_base = []) as ->.
    { induction knowledge_base as [ | doc rest IH]; [reflexivity | ].
      cbn [filter]. unfold relevant_doc at 1, has_query_word.
      rewrite (blank_has_no_word query Hblank). cbn [py_any existsb].
      rewrite andb_false_r. exact IH. }
    reflexivity.
Qed.

Lemma find_relevant_knowledge_bounds_witness :
  _find_relevant_knowledge FINANCIAL_DOMAIN_DOCS "  "
  = [DOC_PCI_DSS; DOC_AML].
Proof.
  apply (find_relevant_knowledge_bounds FINANCIAL_DOMAIN_DOCS "  ").
  reflexivity.
Defined.

(** X30. The scenarios of [generate_domain_aware_tests] for a specification
    whose type is an ASCII string: the knowledge lookup it performs has no influence,
    the result being the same for every knowledge base and query; there are
    one to four scenarios, two for a banking or transaction type, one for a
    payment or card type, and always the GDPR scenario, which comes last and
    is the only one of priority "medium"; every name starts with the name of
    the API. *)
Theorem domain_aware_tests_shape repr_other knowledge_base api_spec
        query_context s :
  dict_get api_spec "type" (VStr "unknown") = VStr s ->
  str_isascii s = true ->
  let api_name :=
    py_str repr_other (dict_get api_spec "name" (VStr "Unknown API")) in
  exists scenarios,
    (forall other_base other_query,
        generate_domain_aware_tests repr_other other_base api_spec other_query
        = Ok scenarios) /\
    generate_domain_aware_tests repr_other knowledge_base api_spec query_context
    = Ok scenarios /\
    List.length scenarios
    = ((if banking_kind (str_lower s) then 2 else 0)
       + (if payment_kind (str_lower s) then 1 else 0) + 1)%nat /\
    last scenarios []
    = [("name", VStr (api_name ++ " GDPR Data Privacy Test"));
       ("description", VStr "Test personal data protection and user rights");
       ("priority", VStr "medium"); ("type", VStr "compliance")] /\
    Forall (fun sc => dict_lookup sc "priority" = Some (VStr "high"))
           (removelast scenarios) /\
    Forall (fun sc => exists rest,
                dict_lookup sc "name" = Some (VStr (api_name ++ rest)))
           scenarios.
Proof.
  intros Htype _ api_name.
  unfold generate_domain_aware_tests. rewrite Htype. cbn [py_lower]. cbv zeta.
  fold api_name. fold (banking_kind (str_lower s)).
  fold (payment_kind (str_lower s)).
  eexists. split; [intros; reflexivity | ]. split; [reflexivity | ].
  destruct (banking_kind (str_lower s)); destruct (payment_kind (str_lower s));
    cbn [app List.length last removelast Nat.add];
    (split; [reflexivity | ]); (split; [reflexivity | ]);
    (split; [repeat constructor | ]);
    repeat constructor; eexists; reflexivity.
Qed.

Lemma domain_aware_tests_shape_witness :
  exists scenarios,
    generate_domain_aware_tests (fun _ => "") FINANCIAL_DOMAIN_DOCS BANKING_SPEC
                                "Banking and financial services"
    = Ok scenarios /\
    List.length scenarios = 3%nat.
Proof.
  destruct (domain_aware_tests_shape (fun _ => "") FINANCIAL_DOMAIN_DOCS
              BANKING_SPEC "Banking and financial services" "banking_api"
              eq_refl eq_refl)
    as (scenarios & _ & Hrun & Hlen & _).
  exists scenarios. split; [exact Hrun | exact Hlen].
Defined.
